(** * SkyMetropolis: the simulation and state core, embedded in Rocq

    A shallow embedding of the city-builder's authoritative model:
    - the grid and economy model   (config/constants.ts, types.ts),
    - the tick transition function (features/city/logic/simulation.ts and
      the older lib/simulation.ts),
    - the goal evaluator           (checkGoalCompletion),
    - the zustand store commands   (store/gameStore.ts, both revisions),
    - the agent population counts  (TrafficSystem, PopulationSystem) and
      the step a car takes on arrival,
    - the callers of the store     (App, the toolbar, the map preview,
      the game-loop hook) and the game loop of the first App.

    JavaScript numbers that the program only uses as integers (money,
    population, day, costs) are [Z]; array indices are [nat]; an access
    that would raise a TypeError in JavaScript makes the embedded
    function return [None]. *)

From Stdlib Require Import ZArith Lia.
From stdpp Require Import base decidable option list numbers strings pretty.
From stdpp Require Import countable gmap.

Local Open Scope Z_scope.

(** ** Data model *)

(** Modelled from the spec: types.ts is not among the sources.  The
    spec's closed enum [{None, Road, Residential, Commercial, Industrial,
    Park}]; its values are non-empty strings in the program (they are
    passed to [z.enum] and used as object keys), hence all truthy. *)
Module BuildingType.
Inductive t := None | Road | Residential | Commercial | Industrial | Park.

#[global] Instance eq_dec : EqDecision t.
Proof. solve_decision. Defined.

Definition all : list t := [None; Road; Residential; Commercial; Industrial; Park].

Definition to_nat (b : t) : nat :=
  match b with
  | None => 0 | Road => 1 | Residential => 2
  | Commercial => 3 | Industrial => 4 | Park => 5
  end%nat.
End BuildingType.

#[global] Instance BuildingType_countable : Countable BuildingType.t.
Proof.
  refine (inj_countable' BuildingType.to_nat
            (fun n => nth n BuildingType.all BuildingType.None) _).
  intros []; reflexivity.
Defined.

(** Modelled from the spec: types.ts is not among the sources.  A tile is
    [{x, y, buildingType}], as the store's [row.push] builds it. *)
Module TileData.
Record t := mk { x : nat; y : nat; buildingType : BuildingType.t }.

#[global] Instance eq_dec : EqDecision t.
Proof. solve_decision. Defined.

(** [{ ...tile, buildingType: b }] *)
Definition withBuildingType (tile : t) (b : BuildingType.t) : t :=
  mk (x tile) (y tile) b.
End TileData.

(** [Grid = TileData[][]], indexed [grid[y][x]]. *)
Abbreviation Grid := (list (list TileData.t)).

(** Modelled from the spec: types.ts is not among the sources.  The
    fields are those of the entries of [BUILDINGS]. *)
Module BuildingConfig.
Record t := mk {
  type : BuildingType.t;
  cost : Z;
  name : string;
  description : string;
  color : string;
  popGen : Z;
  incomeGen : Z
}.
End BuildingConfig.

(** Modelled from the spec: types.ts is not among the sources.
    [{money, population, day}], as [calculateNextDay] returns it. *)
Module CityStats.
Record t := mk { money : Z; population : Z; day : Z }.

(** [{ ...stats, money: m }] *)
Definition withMoney (s : t) (m : Z) : t := mk m (population s) (day s).
End CityStats.

(** Modelled from the spec: types.ts is not among the sources.  The three
    target types of [GoalResponseSchema]. *)
Module TargetType.
Inductive t := population | money | building_count.

#[global] Instance eq_dec : EqDecision t.
Proof. solve_decision. Defined.
End TargetType.

(** Modelled from the spec: types.ts is not among the sources.  The
    fields of [GoalResponseSchema] plus [completed]; [buildingType] is
    optional. *)
Module AIGoal.
Record t := mk {
  description : string;
  targetType : TargetType.t;
  targetValue : Z;
  buildingType : option BuildingType.t;
  reward : Z;
  completed : bool
}.

(** [{ ...goal, completed: true }] *)
Definition complete (g : t) : t :=
  mk (description g) (targetType g) (targetValue g) (buildingType g) (reward g) true.
End AIGoal.

(** Modelled from the spec: types.ts is not among the sources. *)
Module NewsType.
Inductive t := positive | negative | neutral.

#[global] Instance eq_dec : EqDecision t.
Proof. solve_decision. Defined.
End NewsType.

(** Modelled from the spec: types.ts is not among the sources.
    [{id, text, type}], as [addNews] receives it. *)
Module NewsItem.
Record t := mk { id : string; text : string; type : NewsType.t }.
End NewsItem.

(** ** config/constants.ts *)

Definition GRID_SIZE : nat := 15.
Definition TICK_RATE_MS : Z := 2000.
Definition INITIAL_MONEY : Z := 1000.
Definition DEMOLISH_COST : Z := 5.
Definition MAX_POP_PER_RESIDENTIAL : Z := 50.
Definition NO_HOUSING_DECAY : Z := 5.

(** [BUILDINGS : Record<BuildingType, BuildingConfig>] is total on the
    closed enum, so the guards [if (config)] and [BUILDINGS[type]?.cost]
    of the program always find a configuration. *)
Definition BUILDINGS (b : BuildingType.t) : BuildingConfig.t :=
  match b with
  | BuildingType.None =>
      BuildingConfig.mk BuildingType.None 0 "Bulldoze" "Clear a tile" "#ef4444" 0 0
  | BuildingType.Road =>
      BuildingConfig.mk BuildingType.Road 10 "Road" "Connects buildings." "#374151" 0 0
  | BuildingType.Residential =>
      BuildingConfig.mk BuildingType.Residential 100 "House" "+5 Pop/day" "#f87171" 5 0
  | BuildingType.Commercial =>
      BuildingConfig.mk BuildingType.Commercial 200 "Shop" "+$15/day" "#60a5fa" 0 15
  | BuildingType.Industrial =>
      BuildingConfig.mk BuildingType.Industrial 400 "Factory" "+$40/day" "#facc15" 0 40
  | BuildingType.Park =>
      BuildingConfig.mk BuildingType.Park 50 "Park" "Looks nice." "#4ade80" 1 0
  end.

(** ** Loops and indexing *)

(** [v || 0] on a number: 0 is the only falsy integer. *)
Definition orZero (v : Z) : Z := if decide (v = 0) then 0 else v.

(** [for (let i = 0; i < n; i++) body], threading the loop's variables
    and stopping at the first TypeError. *)
Definition forRange {A : Type} (n : nat) (body : nat -> A -> option A) (init : A)
  : option A :=
  foldl (fun acc i => acc ≫= body i) (Some init) (seq 0 n).

(** [grid[y][x]] followed by a property access on the tile: a TypeError
    when the row or the tile is undefined. *)
Definition tileAt (grid : Grid) (x y : nat) : option TileData.t :=
  row ← grid !! y; row !! x.

(** ** features/city/logic/simulation.ts *)

(** The three accumulators of the single pass over the grid. *)
Record Tally := mkTally {
  dailyIncome : Z;
  dailyPopGrowth : Z;
  residentialCount : Z
}.

Definition tally0 : Tally := mkTally 0 0 0.

(** The body of the inner loop, once [tile] is read. *)
Definition visitTile (tile : TileData.t) (acc : Tally) : Tally :=
  let type := TileData.buildingType tile in
  if decide (type <> BuildingType.None) then
    let config := BUILDINGS type in
    mkTally (dailyIncome acc + BuildingConfig.incomeGen config)
            (dailyPopGrowth acc + BuildingConfig.popGen config)
            (if decide (type = BuildingType.Residential)
             then residentialCount acc + 1 else residentialCount acc)
  else acc.

Definition analyzeGrid (grid : Grid) : option Tally :=
  forRange GRID_SIZE (fun y acc =>
    forRange GRID_SIZE (fun x acc =>
      tile ← tileAt grid x y; Some (visitTile tile acc)) acc) tally0.

Definition calculateNextDay (currentStats : CityStats.t) (grid : Grid)
  : option CityStats.t :=
  tally ← analyzeGrid grid;
  let maxPop := residentialCount tally * MAX_POP_PER_RESIDENTIAL in
  let newPop := CityStats.population currentStats + dailyPopGrowth tally in
  let newPop := if decide (newPop > maxPop) then maxPop else newPop in
  let newPop :=
    if decide (residentialCount tally = 0 /\ CityStats.population currentStats > 0)
    then Z.max 0 (CityStats.population currentStats - NO_HOUSING_DECAY)
    else newPop in
  Some (CityStats.mk (CityStats.money currentStats + dailyIncome tally)
                     newPop
                     (CityStats.day currentStats + 1)).

Definition canAfford (currentMoney : Z) (type : BuildingType.t) : bool :=
  if decide (type = BuildingType.None) then
    bool_decide (currentMoney >= DEMOLISH_COST)
  else
    let cost := orZero (BuildingConfig.cost (BUILDINGS type)) in
    bool_decide (currentMoney >= cost).

(** The counting loop of [checkGoalCompletion]:
    [for (const row of grid) for (const tile of row) if (...) count++]. *)
Definition countTiles (grid : Grid) (b : BuildingType.t) : Z :=
  foldl (fun count row =>
    foldl (fun count tile =>
      if decide (TileData.buildingType tile = b) then count + 1 else count)
      count row) 0 grid.

Definition checkGoalCompletion (grid : Grid) (stats : CityStats.t)
  (goal : option AIGoal.t) : bool :=
  match goal with
  | None => false
  | Some goal =>
    if AIGoal.completed goal then false
    else if bool_decide (AIGoal.targetType goal = TargetType.money)
            && bool_decide (CityStats.money stats >= AIGoal.targetValue goal)
    then true
    else if bool_decide (AIGoal.targetType goal = TargetType.population)
            && bool_decide (CityStats.population stats >= AIGoal.targetValue goal)
    then true
    else if bool_decide (AIGoal.targetType goal = TargetType.building_count) then
      match AIGoal.buildingType goal with
      | Some b =>
        let count := countTiles grid b in
        if decide (count >= AIGoal.targetValue goal) then true else false
      | None => false
      end
    else false
  end.

(** ** lib/simulation.ts (the older copy, with the constants inlined) *)

Module Lib.
Definition calculateNextDay (currentStats : CityStats.t) (grid : Grid)
  : option CityStats.t :=
  tally ← analyzeGrid grid;
  let maxPop := residentialCount tally * 50 in
  let newPop := CityStats.population currentStats + dailyPopGrowth tally in
  let newPop := if decide (newPop > maxPop) then maxPop else newPop in
  let newPop :=
    if decide (residentialCount tally = 0 /\ CityStats.population currentStats > 0)
    then Z.max 0 (CityStats.population currentStats - 5)
    else newPop in
  Some (CityStats.mk (CityStats.money currentStats + dailyIncome tally)
                     newPop
                     (CityStats.day currentStats + 1)).

Definition canAffordBuilding (currentMoney : Z) (type : BuildingType.t) : bool :=
  let cost := orZero (BuildingConfig.cost (BUILDINGS type)) in
  bool_decide (currentMoney >= cost).
End Lib.

(** ** Well-formed grids *)

(** The data model's grid: [GRID_SIZE] rows of [GRID_SIZE] tiles. *)
Definition wf_grid (grid : Grid) : Prop :=
  length grid = GRID_SIZE /\ Forall (fun row => length row = GRID_SIZE) grid.

#[global] Instance wf_grid_dec grid : Decision (wf_grid grid).
Proof. unfold wf_grid. apply _. Defined.

(** [createInitialGrid] of the store: every tile empty, [x] the column
    and [y] the row. *)
Definition createInitialGrid : Grid :=
  map (fun y => map (fun x => TileData.mk x y BuildingType.None) (seq 0 GRID_SIZE))
      (seq 0 GRID_SIZE).

(** ** The store: state and the zustand [set] partial updates *)

Module GameStore.
Record t := mk {
  grid : Grid;
  selectedTool : BuildingType.t;
  gameStarted : bool;
  isPaused : bool;
  stats : CityStats.t;
  aiEnabled : bool;
  currentGoal : option AIGoal.t;
  isGeneratingGoal : bool;
  newsFeed : list NewsItem.t;
  (** not a field of the store: the cues handed to [audioService.play],
      oldest first *)
  played : list string
}.

(** [set({ grid, stats })] *)
Definition setGridStats (g : Grid) (st : CityStats.t) (s : t) : t :=
  mk g (selectedTool s) (gameStarted s) (isPaused s) st (aiEnabled s)
     (currentGoal s) (isGeneratingGoal s) (newsFeed s) (played s).

(** [set({ stats, currentGoal })] *)
Definition setStatsGoal (st : CityStats.t) (goal : option AIGoal.t) (s : t) : t :=
  mk (grid s) (selectedTool s) (gameStarted s) (isPaused s) st (aiEnabled s)
     goal (isGeneratingGoal s) (newsFeed s) (played s).

(** [set({ newsFeed })] *)
Definition setNewsFeed (feed : list NewsItem.t) (s : t) : t :=
  mk (grid s) (selectedTool s) (gameStarted s) (isPaused s) (stats s) (aiEnabled s)
     (currentGoal s) (isGeneratingGoal s) feed (played s).

(** [audioService.play(cue)] *)
Definition play (cue : string) (s : t) : t :=
  mk (grid s) (selectedTool s) (gameStarted s) (isPaused s) (stats s) (aiEnabled s)
     (currentGoal s) (isGeneratingGoal s) (newsFeed s) (played s ++ [cue]).
End GameStore.

Definition INITIAL_STATS : CityStats.t := CityStats.mk INITIAL_MONEY 0 1.

Definition initialStore : GameStore.t :=
  GameStore.mk createInitialGrid BuildingType.Road false false INITIAL_STATS
               true None false [] [].

(** [newGrid = [...grid]; newGrid[y] = [...newGrid[y]]; newGrid[y][x] = tile].
    Only reached after [grid[y][x]] was read, hence in range. *)
Definition replaceTile (grid : Grid) (x y : nat) (tile : TileData.t) : Grid :=
  alter (fun row => <[x := tile]> row) y grid.

(** [feed.slice(-12)]: the last twelve entries. *)
Definition sliceLast12 (feed : list NewsItem.t) : list NewsItem.t :=
  drop (length feed - 12) feed.

(** The commands that both revisions of the store share verbatim. *)
Definition setTool (tool : BuildingType.t) (s : GameStore.t) : GameStore.t :=
  GameStore.mk (GameStore.grid s) tool (GameStore.gameStarted s) (GameStore.isPaused s)
    (GameStore.stats s) (GameStore.aiEnabled s) (GameStore.currentGoal s)
    (GameStore.isGeneratingGoal s) (GameStore.newsFeed s) (GameStore.played s).

Definition resetGrid (s : GameStore.t) : GameStore.t :=
  GameStore.mk createInitialGrid BuildingType.Road (GameStore.gameStarted s)
    (GameStore.isPaused s) (GameStore.stats s) (GameStore.aiEnabled s)
    (GameStore.currentGoal s) (GameStore.isGeneratingGoal s) (GameStore.newsFeed s)
    (GameStore.played s).

Definition startGame (ai : bool) (s : GameStore.t) : GameStore.t :=
  GameStore.mk (GameStore.grid s) (GameStore.selectedTool s) true false
    (GameStore.stats s) ai (GameStore.currentGoal s)
    (GameStore.isGeneratingGoal s) (GameStore.newsFeed s) (GameStore.played s).

Definition togglePause (s : GameStore.t) : GameStore.t :=
  GameStore.mk (GameStore.grid s) (GameStore.selectedTool s) (GameStore.gameStarted s)
    (negb (GameStore.isPaused s)) (GameStore.stats s) (GameStore.aiEnabled s)
    (GameStore.currentGoal s) (GameStore.isGeneratingGoal s) (GameStore.newsFeed s)
    (GameStore.played s).

Definition resetEconomy (s : GameStore.t) : GameStore.t :=
  GameStore.mk (GameStore.grid s) (GameStore.selectedTool s) false false
    INITIAL_STATS (GameStore.aiEnabled s) (GameStore.currentGoal s)
    (GameStore.isGeneratingGoal s) (GameStore.newsFeed s) (GameStore.played s).

Definition setAiEnabled (enabled : bool) (s : GameStore.t) : GameStore.t :=
  GameStore.mk (GameStore.grid s) (GameStore.selectedTool s) (GameStore.gameStarted s)
    (GameStore.isPaused s) (GameStore.stats s) enabled (GameStore.currentGoal s)
    (GameStore.isGeneratingGoal s) (GameStore.newsFeed s) (GameStore.played s).

Definition setGoal (goal : option AIGoal.t) (s : GameStore.t) : GameStore.t :=
  GameStore.setStatsGoal (GameStore.stats s) goal s.

Definition setIsGeneratingGoal (b : bool) (s : GameStore.t) : GameStore.t :=
  GameStore.mk (GameStore.grid s) (GameStore.selectedTool s) (GameStore.gameStarted s)
    (GameStore.isPaused s) (GameStore.stats s) (GameStore.aiEnabled s)
    (GameStore.currentGoal s) b (GameStore.newsFeed s) (GameStore.played s).

(** [set(state => ({ newsFeed: [...state.newsFeed.slice(-12), news] }))] *)
Definition addNews (news : NewsItem.t) (s : GameStore.t) : GameStore.t :=
  GameStore.setNewsFeed (sliceLast12 (GameStore.newsFeed s) ++ [news]) s.

Definition resetAI (s : GameStore.t) : GameStore.t :=
  GameStore.mk (GameStore.grid s) (GameStore.selectedTool s) (GameStore.gameStarted s)
    (GameStore.isPaused s) (GameStore.stats s) (GameStore.aiEnabled s)
    None false [] (GameStore.played s).

Definition resetGame (s : GameStore.t) : GameStore.t :=
  resetAI (resetEconomy (resetGrid s)).

(** [claimReward] is the same text in both revisions.  [now] is the
    reading of [Date.now()]. *)
Definition claimReward (now : N) (s : GameStore.t) : GameStore.t :=
  match GameStore.currentGoal s with
  | Some currentGoal =>
    if AIGoal.completed currentGoal then
      let s1 :=
        GameStore.setStatsGoal
          (CityStats.withMoney (GameStore.stats s)
             (CityStats.money (GameStore.stats s) + AIGoal.reward currentGoal))
          None s in
      let s2 :=
        addNews (NewsItem.mk (pretty now)
                   ("Goal achieved! " +:+ pretty (AIGoal.reward currentGoal)
                      +:+ " collected.")
                   NewsType.positive) s1 in
      GameStore.play "success" s2
    else s
  | None => s
  end.

(** ** store/gameStore.ts *)

Module Store.

Definition placeBuilding (now : N) (x y : nat) (s : GameStore.t)
  : option GameStore.t :=
  let grid := GameStore.grid s in
  let stats := GameStore.stats s in
  let selectedTool := GameStore.selectedTool s in
  if GameStore.isPaused s then Some s else
  tile ← tileAt grid x y;
  let config := BUILDINGS selectedTool in
  if decide (selectedTool = BuildingType.None) then
    if decide (TileData.buildingType tile <> BuildingType.None) then
      let demolishCost := 5 in
      if decide (CityStats.money stats >= demolishCost) then
        let newGrid :=
          replaceTile grid x y (TileData.withBuildingType tile BuildingType.None) in
        Some (GameStore.play "bulldoze"
                (GameStore.setGridStats newGrid
                   (CityStats.withMoney stats (CityStats.money stats - demolishCost)) s))
      else
        Some (GameStore.play "error"
                (addNews (NewsItem.mk (pretty now) "Cannot afford demolition."
                            NewsType.negative) s))
    else Some s
  else if decide (TileData.buildingType tile = BuildingType.None) then
    if Lib.canAffordBuilding (CityStats.money stats) selectedTool then
      let newGrid := replaceTile grid x y (TileData.withBuildingType tile selectedTool) in
      Some (GameStore.play "build"
              (GameStore.setGridStats newGrid
                 (CityStats.withMoney stats
                    (CityStats.money stats - BuildingConfig.cost config)) s))
    else
      Some (GameStore.play "error"
              (addNews (NewsItem.mk (pretty now)
                          ("Insufficient funds for " +:+ BuildingConfig.name config +:+ ".")
                          NewsType.negative) s))
  else Some s.

(** [grid.flat().forEach(t => buildingCounts[t.buildingType] =
      (buildingCounts[t.buildingType] || 0) + 1)] *)
Definition buildingCounts (grid : Grid) : gmap BuildingType.t Z :=
  foldl (fun counts t =>
           <[TileData.buildingType t :=
               orZero (default 0 (counts !! TileData.buildingType t)) + 1]> counts)
        ∅ (concat grid).

Definition tick (s : GameStore.t) : option GameStore.t :=
  let grid := GameStore.grid s in
  if GameStore.isPaused s then Some s else
  newStats ← Lib.calculateNextDay (GameStore.stats s) grid;
  let updatedGoal :=
    match GameStore.currentGoal s with
    | Some currentGoal =>
      if GameStore.aiEnabled s && negb (AIGoal.completed currentGoal) then
        let isMet := false in
        let counts := buildingCounts grid in
        let isMet :=
          if bool_decide (AIGoal.targetType currentGoal = TargetType.money)
             && bool_decide (CityStats.money newStats >= AIGoal.targetValue currentGoal)
          then true else isMet in
        let isMet :=
          if bool_decide (AIGoal.targetType currentGoal = TargetType.population)
             && bool_decide (CityStats.population newStats >= AIGoal.targetValue currentGoal)
          then true else isMet in
        let isMet :=
          if bool_decide (AIGoal.targetType currentGoal = TargetType.building_count) then
            match AIGoal.buildingType currentGoal with
            | Some b =>
              if decide (orZero (default 0 (counts !! b))
                         >= AIGoal.targetValue currentGoal)
              then true else isMet
            | None => isMet
            end
          else isMet in
        if isMet then Some (AIGoal.complete currentGoal) else Some currentGoal
      else Some currentGoal
    | None => None
    end in
  Some (GameStore.setStatsGoal newStats updatedGoal s).

End Store.

(** ** The refactored store (imports config/constants and
       features/city/logic/simulation) *)

Module ModularStore.

Definition placeBuilding (now : N) (x y : nat) (s : GameStore.t)
  : option GameStore.t :=
  let grid := GameStore.grid s in
  let stats := GameStore.stats s in
  let selectedTool := GameStore.selectedTool s in
  if GameStore.isPaused s then Some s else
  tile ← tileAt grid x y;
  let config := BUILDINGS selectedTool in
  if decide (selectedTool = BuildingType.None) then
    if decide (TileData.buildingType tile <> BuildingType.None) then
      if canAfford (CityStats.money stats) BuildingType.None then
        let newGrid :=
          replaceTile grid x y (TileData.withBuildingType tile BuildingType.None) in
        Some (GameStore.play "bulldoze"
                (GameStore.setGridStats newGrid
                   (CityStats.withMoney stats (CityStats.money stats - DEMOLISH_COST)) s))
      else
        Some (GameStore.play "error"
                (addNews (NewsItem.mk (pretty now) "Cannot afford demolition."
                            NewsType.negative) s))
    else Some s
  else if decide (TileData.buildingType tile = BuildingType.None) then
    if canAfford (CityStats.money stats) selectedTool then
      let newGrid := replaceTile grid x y (TileData.withBuildingType tile selectedTool) in
      Some (GameStore.play "build"
              (GameStore.setGridStats newGrid
                 (CityStats.withMoney stats
                    (CityStats.money stats - BuildingConfig.cost config)) s))
    else
      Some (GameStore.play "error"
              (addNews (NewsItem.mk (pretty now)
                          ("Insufficient funds for " +:+ BuildingConfig.name config +:+ ".")
                          NewsType.negative) s))
  else Some s.

Definition tick (s : GameStore.t) : option GameStore.t :=
  let grid := GameStore.grid s in
  if GameStore.isPaused s then Some s else
  newStats ← calculateNextDay (GameStore.stats s) grid;
  let updatedGoal :=
    match GameStore.currentGoal s with
    | Some currentGoal =>
      if GameStore.aiEnabled s && negb (AIGoal.completed currentGoal) then
        if checkGoalCompletion grid newStats (Some currentGoal)
        then Some (AIGoal.complete currentGoal)
        else Some currentGoal
      else Some currentGoal
    | None => None
    end in
  Some (GameStore.setStatsGoal newStats updatedGoal s).

End ModularStore.
(** ** Reachable store states *)

(** What [GoalResponseSchema] guarantees of a goal handed to [setGoal]:
    [targetValue] and [reward] are positive integers. *)
Definition validGoal (g : AIGoal.t) : Prop :=
  0 < AIGoal.targetValue g /\ 0 < AIGoal.reward g.

#[global] Instance validGoal_dec g : Decision (validGoal g).
Proof. unfold validGoal. apply _. Defined.

Inductive Command :=
| SetTool (tool : BuildingType.t)
| PlaceBuilding (now : N) (x y : nat)
| Tick
| ClaimReward (now : N)
| StartGame (ai : bool)
| TogglePause
| SetAiEnabled (enabled : bool)
| SetGoal (goal : option AIGoal.t)
| SetIsGeneratingGoal (b : bool)
| AddNews (news : NewsItem.t)
| ResetGame.

(** One command on the store; a command that throws leaves the store as
    it was (every [set] comes after the last access that can throw). *)
Definition run (c : Command) (s : GameStore.t) : GameStore.t :=
  match c with
  | SetTool tool => setTool tool s
  | PlaceBuilding now x y => default s (Store.placeBuilding now x y s)
  | Tick => default s (Store.tick s)
  | ClaimReward now => claimReward now s
  | StartGame ai => startGame ai s
  | TogglePause => togglePause s
  | SetAiEnabled enabled => setAiEnabled enabled s
  | SetGoal goal => setGoal goal s
  | SetIsGeneratingGoal b => setIsGeneratingGoal b s
  | AddNews news => addNews news s
  | ResetGame => resetGame s
  end.

(** The advisor only installs goals that passed the schema. *)
Definition admissible (c : Command) : Prop :=
  match c with
  | SetGoal (Some g) => validGoal g
  | _ => True
  end.

Inductive reachable : GameStore.t -> Prop :=
| reachable_init : reachable initialStore
| reachable_run c s : reachable s -> admissible c -> reachable (run c s).

(** The invariant carried by reachable states. *)
Definition store_invariant (s : GameStore.t) : Prop :=
  wf_grid (GameStore.grid s)
  /\ 0 <= CityStats.money (GameStore.stats s)
  /\ (forall g, GameStore.currentGoal s = Some g -> 0 < AIGoal.reward g).

(** ** Agents: TrafficSystem and PopulationSystem (world/Entities)

    Only what determines how many agents exist is embedded: the tile
    lists, the counts, the guards and the spawn loops.  Speeds, jitter
    and colours are floating-point payload and are left out; tile
    coordinates are kept. *)

Module Entities.

(** One slot of [carsState]: the tile it stands on, its target tile and
    [progress] (set to 1 at spawn). *)
Record Car := mkCar {
  curX : nat; curY : nat; tarX : nat; tarY : nat; progress : Z
}.




Definition roadTiles (grid : Grid) : list (nat * nat) :=
  foldl (fun roads row =>
    foldl (fun roads tile =>
      if decide (TileData.buildingType tile = BuildingType.Road)
      then roads ++ [(TileData.x tile, TileData.y tile)] else roads)
      roads row) [] grid.


Definition walkableTiles (grid : Grid) : list (nat * nat) :=
  foldl (fun tiles row =>
    foldl (fun tiles tile =>
      if decide (TileData.buildingType tile = BuildingType.Road
                 \/ TileData.buildingType tile = BuildingType.Park
                 \/ TileData.buildingType tile = BuildingType.None)
      then tiles ++ [(TileData.x tile, TileData.y tile)] else tiles)
      tiles row) [] grid.




Section Spawn.
(** The successive results of [Math.random()], as raw entropy:
    [Math.floor(Math.random() * n)] for the [k]-th draw is
    [entropy k mod n], any index below [n] and no other. *)
Variable entropy : nat -> nat.

Definition randomIndex (k n : nat) : nat := Nat.modulo (entropy k) n.


End Spawn.

End Entities.

(** ** Sample inputs *)

(** No housing, twelve inhabitants left. *)
Definition stats12 : CityStats.t := CityStats.mk 1000 12 1.

(** A full-size city with one road tile at (0,0) and houses everywhere
    else. *)
Definition oneRoadCity : Grid :=
  map (fun y =>
    map (fun x =>
      TileData.mk x y
        (if decide (x = 0 /\ y = 0)%nat then BuildingType.Road
         else BuildingType.Residential))
      (seq 0 GRID_SIZE))
    (seq 0 GRID_SIZE).

(** A full-size city whose only building is a park at (0,0). *)
Definition parkCity : Grid :=
  replaceTile createInitialGrid 0 0 (TileData.mk 0 0 BuildingType.Park).

(** A running game with three coins left and the Road tool selected. *)
Definition brokeStore : GameStore.t :=
  GameStore.mk createInitialGrid BuildingType.Road true false
               (CityStats.mk 3 0 1) true None false [] [].

(** The same game with a road at (0,0) and the bulldozer selected. *)
Definition brokeDemolishStore : GameStore.t :=
  GameStore.mk
    (replaceTile createInitialGrid 0 0 (TileData.mk 0 0 BuildingType.Road))
    BuildingType.None true false (CityStats.mk 3 0 1) true None false [] [].

(** The spec's scenario: a money goal of 2000 with reward 500, met and
    flagged completed, treasury at 2000. *)
Definition goal2000 : AIGoal.t :=
  AIGoal.mk "Reach a treasury of 2000" TargetType.money 2000 None 500 true.

(** A building-count goal as the advisor produces them. *)
Definition goalOneRoad : AIGoal.t :=
  AIGoal.mk "Pave a first road" TargetType.building_count 1
            (Some BuildingType.Road) 50 false.

Definition rewardStore : GameStore.t :=
  GameStore.mk createInitialGrid BuildingType.Road true false
               (CityStats.mk 2000 0 1) true (Some goal2000) false [] [].

(** ** Two statements of the spec, as written *)

(** "nextStats(S,G).population <= residentialCount(G) * maxPopPerUnit always" *)
Definition cap_invariant (S : CityStats.t) (G : Grid) : Prop :=
  exists S', calculateNextDay S G = Some S'
    /\ CityStats.population S'
       <= countTiles G BuildingType.Residential * MAX_POP_PER_RESIDENTIAL.


(** The tiles of the grid whose [buildingType] is [b], row after row. *)
Definition tilesOfType (grid : Grid) (b : BuildingType.t) : list TileData.t :=
  filter (fun tile => TileData.buildingType tile = b) (concat grid).

(** How many tiles match the goal: the number of tiles of the goal's
    building type; none when the goal carries no type. *)
Definition matchingTiles (grid : Grid) (b : option BuildingType.t) : nat :=
  match b with
  | Some b => length (tilesOfType grid b)
  | None => 0%nat
  end.

(** The threshold of a goal, by target type. *)
Definition thresholdMet (grid : Grid) (stats : CityStats.t) (g : AIGoal.t) : Prop :=
  match AIGoal.targetType g with
  | TargetType.money => CityStats.money stats >= AIGoal.targetValue g
  | TargetType.population => CityStats.population stats >= AIGoal.targetValue g
  | TargetType.building_count =>
      Z.of_nat (matchingTiles grid (AIGoal.buildingType g)) >= AIGoal.targetValue g
  end.

(** ** Further definitions: windows, coordinates, the game loop *)

(** The coordinates the tick reads: [x] and [y] below [GRID_SIZE]. *)
Definition windowCoords : list (nat * nat) :=
  y ← seq 0 GRID_SIZE; x ← seq 0 GRID_SIZE; [(x, y)].

(** Every tile the tick reads exists. *)
Definition window_covered (grid : Grid) : Prop :=
  Forall (fun p => is_Some (tileAt grid p.1 p.2)) windowCoords.

(** Two grids hold the same tiles at the coordinates the tick reads. *)
Definition same_window (G G' : Grid) : Prop :=
  Forall (fun p => tileAt G p.1 p.2 = tileAt G' p.1 p.2) windowCoords.

#[global] Instance window_covered_dec grid : Decision (window_covered grid).
Proof. unfold window_covered. apply _. Defined.

#[global] Instance same_window_dec G G' : Decision (same_window G G').
Proof. unfold same_window. apply _. Defined.

(** Each tile carries its own position: [x] its column, [y] its row. *)
Definition coherent_grid (grid : Grid) : Prop :=
  forall x y t, tileAt grid x y = Some t -> TileData.x t = x /\ TileData.y t = y.

(** Tiles of type [b] in a flat list of tiles, counted as the counting
    loop does. *)
Definition countIn (b : BuildingType.t) (l : list TileData.t) : Z :=
  foldl (fun count tile =>
           if decide (TileData.buildingType tile = b) then count + 1 else count)
        0 l.

(** [useGameLoop]: [n] firings of the interval, each calling the store's
    [tick]; a tick that throws ends the sequence. *)
Fixpoint ticks (n : nat) (s : GameStore.t) : option GameStore.t :=
  match n with
  | O => Some s
  | S n => s' ← Store.tick s; ticks n s'
  end.

(** A full-size city with a sixteenth row and a sixteenth column. *)
Definition oversizedCity : Grid :=
  map (fun y => map (fun x => TileData.mk x y BuildingType.Residential) (seq 0 16))
      (seq 0 16).

(** A city one row short. *)
Definition shortCity : Grid := take 14 createInitialGrid.

(** A running game on a city with two houses, one park, one shop and one
    factory, and forty inhabitants. *)
Definition smallTown : GameStore.t :=
  GameStore.mk
    (replaceTile (replaceTile (replaceTile (replaceTile (replaceTile createInitialGrid
       0 0 (TileData.mk 0 0 BuildingType.Residential))
       1 0 (TileData.mk 1 0 BuildingType.Residential))
       2 0 (TileData.mk 2 0 BuildingType.Park))
       3 0 (TileData.mk 3 0 BuildingType.Commercial))
       4 0 (TileData.mk 4 0 BuildingType.Industrial))
    BuildingType.Road true false (CityStats.mk 500 40 7) true None false [] [].

(** Ninety-nine inhabitants, for the same town: its two houses hold a
    hundred, and a day brings eleven more. *)
Definition stats99 : CityStats.t := CityStats.mk 500 99 7.

(** The same town with a money goal of 520 still open. *)
Definition savingTown : GameStore.t :=
  setGoal (Some (AIGoal.mk "Save up" TargetType.money 520 None 100 false)) smallTown.

(** A running game on the empty city with twelve inhabitants left. *)
Definition ghostTown : GameStore.t :=
  GameStore.mk createInitialGrid BuildingType.Road true false stats12
               true None false [] [].

(** ** The callers: App, the toolbar and the map *)

Module App.
End App.

(** [ToolButton] of the toolbar: what decides whether the button of a
    tool is disabled. *)
Module Toolbar.
Definition tools : list BuildingType.t :=
  [BuildingType.None; BuildingType.Road; BuildingType.Residential;
   BuildingType.Commercial; BuildingType.Industrial; BuildingType.Park].

Definition canAfford (money : Z) (type : BuildingType.t) : bool :=
  bool_decide (money >= BuildingConfig.cost (BUILDINGS type)).

Definition isBulldoze (type : BuildingType.t) : bool :=
  bool_decide (type = BuildingType.None).

(** [disabled={!isBulldoze && !canAfford}] *)
Definition disabled (money : Z) (type : BuildingType.t) : bool :=
  negb (isBulldoze type) && negb (canAfford money type).
End Toolbar.

(** [IsoMap]: whether the placement preview is drawn over the hovered
    tile.  [None] is the TypeError of reading a tile that does not
    exist. *)
Module IsoMap.
End IsoMap.

(** ** Traffic: what a car does when it reaches its target *)

Module Traffic.
(** The test of the neighbour filter: [t] is one step from
    ([curX], [curY]) along a row or a column. *)
Definition adjacent (curX curY : nat) (t : nat * nat) : Prop :=
  (Z.abs (Z.of_nat t.1 - Z.of_nat curX) = 1 /\ t.2 = curY)
  \/ (Z.abs (Z.of_nat t.2 - Z.of_nat curY) = 1 /\ t.1 = curX).

#[global] Instance adjacent_dec curX curY t : Decision (adjacent curX curY t).
Proof. unfold adjacent. apply _. Defined.

(** The frame callback of [TrafficSystem], for one car whose progress
    reaches 1 in this frame.  With fewer than two road tiles the callback
    returns before its loop and the slot is left as it was.  Otherwise
    the branch [if (progress >= 1)] runs; [car] is the slot as read at
    the top of the iteration, so [curX car], [curY car] is the tile the
    car came from.  On whole coordinates [Math.abs(n.x - old) > 0.1] is
    [n.x <> old].  [draw] numbers the call of [Math.random()].  (Whether
    the branch is taken depends on [progress += speed], floating point,
    which is not embedded.) *)
Definition arrive (entropy : nat -> nat) (draw : nat)
  (roadTiles : list (nat * nat)) (car : Entities.Car) : option Entities.Car :=
  if decide (length roadTiles < 2)%nat then Some car
  else
    let curX := Entities.tarX car in
    let curY := Entities.tarY car in
    let neighbors := filter (adjacent curX curY) roadTiles in
    if decide (0 < length neighbors)%nat then
      let valid :=
        if decide (1 < length neighbors)%nat
        then filter (fun n => n.1 <> Entities.curX car \/ n.2 <> Entities.curY car)
                    neighbors
        else neighbors in
      next ← (if decide (0 < length valid)%nat
              then valid !! Entities.randomIndex entropy draw (length valid)
              else neighbors !! 0%nat);
      Some (Entities.mkCar curX curY next.1 next.2 0)
    else
      rnd ← roadTiles !! Entities.randomIndex entropy draw (length roadTiles);
      Some (Entities.mkCar rnd.1 rnd.2 rnd.1 rnd.2 0).
End Traffic.

(** A straight road of four tiles along row 2 and a side street. *)
Definition sampleRoads : list (nat * nat) :=
  [(1, 2); (2, 2); (3, 2); (4, 2); (2, 3)]%nat.

(** What is left of it after demolition down to one tile. *)
Definition lastRoad : list (nat * nat) := [(2, 2)]%nat.

(** ** The first App: the game loop written inside the component *)

Module LegacyApp.
(** What the walk over [gridRef.current.flat()] accumulates. *)
Record Scan := mkScan {
  dailyIncome : Z;
  dailyPopGrowth : Z;
  buildingCounts : gmap BuildingType.t Z
}.

Definition scanTile (acc : Scan) (tile : TileData.t) : Scan :=
  if decide (TileData.buildingType tile <> BuildingType.None) then
    let config := BUILDINGS (TileData.buildingType tile) in
    mkScan (dailyIncome acc + BuildingConfig.incomeGen config)
           (dailyPopGrowth acc + BuildingConfig.popGen config)
           (<[TileData.buildingType tile :=
                orZero (default 0 (buildingCounts acc !! TileData.buildingType tile)) + 1]>
              (buildingCounts acc))
  else acc.

(** The body of the interval callback: the new statistics handed to
    [setStats] and the goal as [setCurrentGoal] leaves it.  (The call of
    [fetchNews], asynchronous, is left out.) *)
Definition gameLoop (prev : CityStats.t) (grid : Grid) (aiEnabled : bool)
  (goal : option AIGoal.t) : CityStats.t * option AIGoal.t :=
  let scan := foldl scanTile (mkScan 0 0 ∅) (concat grid) in
  let resCount := orZero (default 0 (buildingCounts scan !! BuildingType.Residential)) in
  let maxPop := resCount * 50 in
  let newPop := CityStats.population prev + dailyPopGrowth scan in
  let newPop := if decide (newPop > maxPop) then maxPop else newPop in
  let newPop :=
    if decide (resCount = 0 /\ CityStats.population prev > 0)
    then Z.max 0 (CityStats.population prev - 5) else newPop in
  let newStats :=
    CityStats.mk (CityStats.money prev + dailyIncome scan) newPop
                 (CityStats.day prev + 1) in
  let goal' :=
    match goal with
    | Some goal =>
      if aiEnabled && negb (AIGoal.completed goal) then
        let isMet := false in
        let isMet :=
          if bool_decide (AIGoal.targetType goal = TargetType.money)
             && bool_decide (CityStats.money newStats >= AIGoal.targetValue goal)
          then true else isMet in
        let isMet :=
          if bool_decide (AIGoal.targetType goal = TargetType.population)
             && bool_decide (CityStats.population newStats >= AIGoal.targetValue goal)
          then true else isMet in
        let isMet :=
          if bool_decide (AIGoal.targetType goal = TargetType.building_count) then
            match AIGoal.buildingType goal with
            | Some b =>
              if decide (orZero (default 0 (buildingCounts scan !! b))
                         >= AIGoal.targetValue goal)
              then true else isMet
            | None => isMet
            end
          else isMet in
        if isMet then Some (AIGoal.complete goal) else Some goal
      else Some goal
    | None => None
    end in
  (newStats, goal').
End LegacyApp.

(** * Properties *)

Lemma orZero_id v : orZero v = v.
Proof. unfold orZero. case_decide; congruence. Qed.

(** ** Reasoning about the loops *)

Section ForRange.
Context {A : Type}.

(** Loop rule: an invariant indexed by the loop counter. *)
Lemma forRange_invariant (P : nat -> A -> Prop) n (body : nat -> A -> option A) init :
  P 0%nat init ->
  (forall i a, (i < n)%nat -> P i a -> exists a', body i a = Some a' /\ P (S i) a') ->
  exists r, forRange n body init = Some r /\ P n r.
Proof.
  unfold forRange. intros H0 Hstep.
  induction n as [|n IH].
  - exists init. split; [reflexivity | exact H0].
  - destruct IH as (r & Hr & HP).
    { intros i a Hi. apply Hstep. lia. }
    destruct (Hstep n r) as (r' & Hb & HP'); [lia | exact HP |].
    exists r'. split; [| exact HP'].
    rewrite seq_S, foldl_app. simpl. rewrite Hr. exact Hb.
Qed.

(** A loop that reads [l[i]] at each step is a fold over [l]. *)
Lemma forRange_lookup {B : Type} (l : list B) (f : B -> A -> A) init :
  forRange (length l) (fun i a => t ← l !! i; Some (f t a)) init
  = Some (foldl (fun a t => f t a) init l).
Proof.
  destruct (forRange_invariant
              (fun i a => a = foldl (fun a t => f t a) init (take i l))
              (length l) (fun i a => t ← l !! i; Some (f t a)) init)
    as (r & Hr & HP).
  - reflexivity.
  - intros i a Hi ->.
    destruct (lookup_lt_is_Some_2 l i Hi) as [t Ht].
    exists (f t (foldl (fun a t => f t a) init (take i l))).
    rewrite Ht. split; [reflexivity |].
    rewrite (take_S_r _ _ _ Ht), foldl_app. reflexivity.
  - rewrite Hr, HP, firstn_all. reflexivity.
Qed.
End ForRange.

(** On a well-formed grid the double loop visits every tile, row by row. *)
Lemma analyzeGrid_wf grid :
  wf_grid grid ->
  analyzeGrid grid = Some (foldl (fun acc t => visitTile t acc) tally0 (concat grid)).
Proof.
  intros [Hlen Hrows]. unfold analyzeGrid.
  destruct (forRange_invariant
    (fun y acc => acc = foldl (fun acc t => visitTile t acc) tally0 (concat (take y grid)))
    GRID_SIZE
    (fun y acc => forRange GRID_SIZE (fun x acc =>
       tile ← tileAt grid x y; Some (visitTile tile acc)) acc) tally0)
    as (r & Hr & HP).
  - reflexivity.
  - intros y acc Hy ->.
    destruct (lookup_lt_is_Some_2 grid y) as [row Hrow]; [lia |].
    assert (Hl : length row = GRID_SIZE).
    { eapply (proj1 (Forall_lookup _ _) Hrows); eauto. }
    eexists. split.
    + unfold tileAt. rewrite Hrow. simpl. rewrite <- Hl.
      apply (forRange_lookup row visitTile).
    + rewrite (take_S_r _ _ _ Hrow), concat_app, foldl_app. simpl.
      rewrite app_nil_r. reflexivity.
  - rewrite Hr, HP, <- Hlen, firstn_all. reflexivity.
Qed.

(** ** Folds over the flattened grid *)

Lemma foldl_concat {A B : Type} (f : A -> B -> A) (ls : list (list B)) (a : A) :
  foldl (fun a row => foldl f a row) a ls = foldl f a (concat ls).
Proof.
  revert a. induction ls as [|row ls IH]; intros a; simpl.
  - reflexivity.
  - rewrite foldl_app. apply IH.
Qed.

(** The step of the counting loop. *)
Lemma countTiles_flat grid b :
  countTiles grid b
  = foldl (fun count tile =>
             if decide (TileData.buildingType tile = b) then count + 1 else count)
          0 (concat grid).
Proof. unfold countTiles. apply foldl_concat. Qed.

Lemma count_fold_shift b (l : list TileData.t) (c d : Z) :
  foldl (fun count tile =>
           if decide (TileData.buildingType tile = b) then count + 1 else count)
        (c + d) l
  = foldl (fun count tile =>
             if decide (TileData.buildingType tile = b) then count + 1 else count)
          c l + d.
Proof.
  revert c. induction l as [|t l IH]; intros c; simpl.
  - reflexivity.
  - case_decide.
    + replace (c + d + 1) with ((c + 1) + d) by lia. apply IH.
    + apply IH.
Qed.

Lemma count_fold_lower b (l : list TileData.t) (c : Z) :
  c <= foldl (fun count tile =>
                if decide (TileData.buildingType tile = b) then count + 1 else count)
             c l.
Proof.
  revert c. induction l as [|t l IH]; intros c; simpl.
  - lia.
  - case_decide; [specialize (IH (c + 1)) | specialize (IH c)]; lia.
Qed.

Lemma countTiles_nonneg grid b : 0 <= countTiles grid b.
Proof. rewrite countTiles_flat. apply count_fold_lower. Qed.

(** The pass's [residentialCount] is the number of Residential tiles. *)
Lemma visit_residentialCount (l : list TileData.t) (acc : Tally) (c : Z) :
  residentialCount (foldl (fun acc t => visitTile t acc) acc l) + c
  = residentialCount acc
    + foldl (fun count tile =>
               if decide (TileData.buildingType tile = BuildingType.Residential)
               then count + 1 else count) c l.
Proof.
  revert acc c. induction l as [|t l IH]; intros acc c; simpl.
  - lia.
  - rewrite IH. unfold visitTile.
    destruct (TileData.buildingType t); simpl;
      repeat case_decide; try congruence; simpl;
      rewrite ?count_fold_shift; lia.
Qed.

Lemma BUILDINGS_yield_nonneg b :
  0 <= BuildingConfig.incomeGen (BUILDINGS b) /\ 0 <= BuildingConfig.popGen (BUILDINGS b).
Proof. destruct b; simpl; lia. Qed.

Lemma visit_dailyIncome_lower (l : list TileData.t) (acc : Tally) :
  dailyIncome acc <= dailyIncome (foldl (fun acc t => visitTile t acc) acc l).
Proof.
  revert acc. induction l as [|t l IH]; intros acc; simpl.
  - lia.
  - etransitivity; [| apply IH]. unfold visitTile.
    pose proof (BUILDINGS_yield_nonneg (TileData.buildingType t)).
    case_decide; simpl; lia.
Qed.

Lemma visit_dailyPopGrowth_lower (l : list TileData.t) (acc : Tally) :
  dailyPopGrowth acc <= dailyPopGrowth (foldl (fun acc t => visitTile t acc) acc l).
Proof.
  revert acc. induction l as [|t l IH]; intros acc; simpl.
  - lia.
  - etransitivity; [| apply IH]. unfold visitTile.
    pose proof (BUILDINGS_yield_nonneg (TileData.buildingType t)).
    case_decide; simpl; lia.
Qed.

(** What the single pass returns on a well-formed grid. *)
Lemma analyzeGrid_total grid :
  wf_grid grid ->
  exists tally, analyzeGrid grid = Some tally
    /\ residentialCount tally = countTiles grid BuildingType.Residential
    /\ 0 <= dailyIncome tally
    /\ 0 <= dailyPopGrowth tally.
Proof.
  intros Hwf. eexists. split; [apply analyzeGrid_wf; exact Hwf |].
  split; [| split].
  - pose proof (visit_residentialCount (concat grid) tally0 0) as H.
    rewrite countTiles_flat. simpl in H. lia.
  - apply (visit_dailyIncome_lower (concat grid) tally0).
  - apply (visit_dailyPopGrowth_lower (concat grid) tally0).
Qed.

Lemma createInitialGrid_wf : wf_grid createInitialGrid.
Proof. vm_compute. split; [reflexivity | repeat constructor]. Qed.

(** The two copies of the tick function are the same function. *)
Lemma calculateNextDay_copies_agree S G :
  Lib.calculateNextDay S G = calculateNextDay S G.
Proof. reflexivity. Qed.

(** Shape of the result of a tick on a well-formed grid. *)
Lemma calculateNextDay_total S G :
  wf_grid G ->
  exists tally,
    analyzeGrid G = Some tally
    /\ residentialCount tally = countTiles G BuildingType.Residential
    /\ 0 <= dailyIncome tally /\ 0 <= dailyPopGrowth tally
    /\ calculateNextDay S G =
       Some (CityStats.mk
         (CityStats.money S + dailyIncome tally)
         (if decide (residentialCount tally = 0 /\ CityStats.population S > 0)
          then Z.max 0 (CityStats.population S - NO_HOUSING_DECAY)
          else if decide (CityStats.population S + dailyPopGrowth tally
                          > residentialCount tally * MAX_POP_PER_RESIDENTIAL)
               then residentialCount tally * MAX_POP_PER_RESIDENTIAL
               else CityStats.population S + dailyPopGrowth tally)
         (CityStats.day S + 1)).
Proof.
  intros Hwf. destruct (analyzeGrid_total G Hwf) as (tally & Ha & Hr & Hi & Hp).
  exists tally. repeat split; try assumption.
  unfold calculateNextDay. rewrite Ha. reflexivity.
Qed.

(** ** The tick transition function *)

(** C1, as amended.  On a well-formed grid the tick returns, and the new
    population respects the cap [residentialCount * 50] whenever there is
    housing or nobody to move out; with no housing and a positive
    population the decay branch decides instead: the result is
    [max 0 (population - 5)], whatever the cap. *)
Theorem population_cap_outside_decay (S : CityStats.t) (G : Grid) :
  wf_grid G ->
  exists S', calculateNextDay S G = Some S'
    /\ (0 < countTiles G BuildingType.Residential \/ CityStats.population S <= 0 ->
        CityStats.population S'
        <= countTiles G BuildingType.Residential * MAX_POP_PER_RESIDENTIAL)
    /\ (countTiles G BuildingType.Residential = 0 /\ 0 < CityStats.population S ->
        CityStats.population S'
        = Z.max 0 (CityStats.population S - NO_HOUSING_DECAY)).
Proof.
  intros Hwf.
  destruct (calculateNextDay_total S G Hwf) as (tally & _ & Hr & _ & Hp & Hnext).
  pose proof (countTiles_nonneg G BuildingType.Residential) as Hcount.
  eexists. split; [exact Hnext |]. simpl. rewrite Hr.
  unfold MAX_POP_PER_RESIDENTIAL, NO_HOUSING_DECAY.
  split; intros H; repeat case_decide; lia.
Qed.

Lemma smallTown_wf : wf_grid (GameStore.grid smallTown).
Proof. apply (bool_decide_unpack _). vm_compute. exact I. Qed.

(** A town of two houses and a park with 99 inhabitants: the day would
    bring 11 more, and the tick holds the population at the cap of 100.
    The empty city with twelve inhabitants: the decay branch leaves 7. *)
Lemma population_cap_outside_decay_witness :
  (wf_grid (GameStore.grid smallTown)
   /\ countTiles (GameStore.grid smallTown) BuildingType.Residential = 2
   /\ (dailyPopGrowth <$> analyzeGrid (GameStore.grid smallTown)) = Some 11
   /\ CityStats.population stats99 = 99
   /\ exists S', calculateNextDay stats99 (GameStore.grid smallTown) = Some S'
        /\ CityStats.population S' <= 100)
  /\ (wf_grid createInitialGrid
      /\ countTiles createInitialGrid BuildingType.Residential = 0
      /\ exists S', calculateNextDay stats12 createInitialGrid = Some S'
           /\ CityStats.population S' = 7).
Proof.
  split.
  - split; [exact smallTown_wf |].
    split; [vm_compute; reflexivity |].
    split; [vm_compute; reflexivity |].
    split; [reflexivity |].
    destruct (population_cap_outside_decay stats99 (GameStore.grid smallTown)
                smallTown_wf) as (S' & HS' & Hcap & _).
    exists S'. split; [exact HS' |].
    assert (Hc : countTiles (GameStore.grid smallTown) BuildingType.Residential = 2)
      by (vm_compute; reflexivity).
    rewrite Hc in Hcap. unfold MAX_POP_PER_RESIDENTIAL in Hcap.
    apply Hcap. left. lia.
  - split; [exact createInitialGrid_wf |].
    split; [vm_compute; reflexivity |].
    destruct (population_cap_outside_decay stats12 createInitialGrid
                createInitialGrid_wf) as (S' & HS' & _ & Hdecay).
    exists S'. split; [exact HS' |].
    rewrite Hdecay; [reflexivity |].
    split; [vm_compute; reflexivity | simpl; lia].
Defined.

(** C1, as the spec words it, fails on the empty city with twelve
    inhabitants: the tick leaves seven, and the cap is zero. *)
Lemma cap_invariant_fails_without_housing :
  calculateNextDay stats12 createInitialGrid = Some (CityStats.mk 1000 7 2)
  /\ countTiles createInitialGrid BuildingType.Residential = 0
  /\ ~ cap_invariant stats12 createInitialGrid.
Proof.
  assert (H : calculateNextDay stats12 createInitialGrid = Some (CityStats.mk 1000 7 2))
    by (vm_compute; reflexivity).
  assert (Hc : countTiles createInitialGrid BuildingType.Residential = 0)
    by (vm_compute; reflexivity).
  split; [exact H | split; [exact Hc |]].
  intros (S' & HS' & Hle). rewrite H in HS'. injection HS' as <-.
  rewrite Hc in Hle. simpl in Hle. lia.
Qed.

(** C2.  With no Residential tile and a positive population, the tick
    returns and the new population is [max 0 (population - 5)]; the
    growth contributed by other tiles (a Park yields 1) plays no part. *)
Theorem decay_without_housing (S : CityStats.t) (G : Grid) :
  wf_grid G ->
  countTiles G BuildingType.Residential = 0 ->
  CityStats.population S > 0 ->
  exists S', calculateNextDay S G = Some S'
    /\ CityStats.population S' = Z.max 0 (CityStats.population S - 5).
Proof.
  intros Hwf Hres Hpop.
  destruct (calculateNextDay_total S G Hwf) as (tally & _ & Hr & _ & _ & Hnext).
  eexists. split; [exact Hnext |]. simpl.
  rewrite decide_True by (rewrite Hr; auto). reflexivity.
Qed.

Lemma parkCity_wf : wf_grid parkCity.
Proof. vm_compute. split; [reflexivity | repeat constructor]. Qed.

(** A city whose only building is a park: its tally has a positive
    [dailyPopGrowth], and the population still falls from 12 to 7. *)
Lemma decay_without_housing_witness :
  (wf_grid parkCity
   /\ countTiles parkCity BuildingType.Residential = 0
   /\ CityStats.population stats12 > 0
   /\ (dailyPopGrowth <$> analyzeGrid parkCity) = Some 1)
  /\ exists S', calculateNextDay stats12 parkCity = Some S'
       /\ CityStats.population S' = Z.max 0 (CityStats.population stats12 - 5).
Proof.
  split.
  - split; [exact parkCity_wf |].
    split; [vm_compute; reflexivity |].
    split; [vm_compute; reflexivity | vm_compute; reflexivity].
  - apply (decay_without_housing stats12 parkCity).
    + exact parkCity_wf.
    + vm_compute; reflexivity.
    + vm_compute; reflexivity.
Defined.

(** ** Affordability *)

(** C3.  [canAfford money None] holds exactly when [money >= DEMOLISH_COST]
    (which is 5); for any other type it holds exactly when
    [money >= cost] of that type's configuration. *)
Theorem canAfford_spec (money : Z) (type : BuildingType.t) :
  DEMOLISH_COST = 5
  /\ (canAfford money type = true
      <-> money >= (if decide (type = BuildingType.None) then DEMOLISH_COST
                    else BuildingConfig.cost (BUILDINGS type))).
Proof.
  split; [reflexivity |]. unfold canAfford. rewrite orZero_id.
  case_decide; rewrite bool_decide_eq_true; reflexivity.
Qed.

(** The older helper has no demolition case: on a building type it is
    [canAfford]; on [None] it compares with that entry's cost, 0.  The
    older store never calls it with [None]. *)
Lemma canAffordBuilding_spec (money : Z) (type : BuildingType.t) :
  (type <> BuildingType.None -> Lib.canAffordBuilding money type = canAfford money type)
  /\ (Lib.canAffordBuilding money BuildingType.None = true <-> money >= 0).
Proof.
  split.
  - intros Hne. unfold Lib.canAffordBuilding, canAfford.
    rewrite decide_False by exact Hne. reflexivity.
  - unfold Lib.canAffordBuilding. rewrite orZero_id. simpl.
    apply bool_decide_eq_true.
Qed.

(** ** The goal evaluator *)

(** The evaluator, case by case, with no assumption on the goal. *)
Lemma checkGoalCompletion_cases (G : Grid) (S : CityStats.t) (g : AIGoal.t) :
  checkGoalCompletion G S (Some g) = true
  <-> AIGoal.completed g = false
      /\ match AIGoal.targetType g with
         | TargetType.money => CityStats.money S >= AIGoal.targetValue g
         | TargetType.population => CityStats.population S >= AIGoal.targetValue g
         | TargetType.building_count =>
             exists b, AIGoal.buildingType g = Some b
                       /\ countTiles G b >= AIGoal.targetValue g
         end.
Proof.
  unfold checkGoalCompletion.
  destruct (AIGoal.completed g); [split; [discriminate | intros [? _]; discriminate] |].
  destruct (AIGoal.targetType g); simpl.
  - case_bool_decide; simpl; split; auto; try discriminate. intros [_ ?]; contradiction.
  - case_bool_decide; simpl; split; auto; try discriminate. intros [_ ?]; contradiction.
  - destruct (AIGoal.buildingType g) as [b|].
    + case_decide; split; eauto; try discriminate.
      intros [_ (b' & Hb & Hc)]. injection Hb as ->. contradiction.
    + split; [discriminate |]. intros [_ (b' & Hb & _)]. discriminate.
Qed.

(** The counting loop counts the tiles of type [b]: each such tile of the
    grid once, and nothing else. *)
Lemma count_fold_filter b (l : list TileData.t) :
  foldl (fun count tile =>
           if decide (TileData.buildingType tile = b) then count + 1 else count)
        0 l
  = Z.of_nat (length (filter (fun tile => TileData.buildingType tile = b) l)).
Proof.
  induction l as [|t l IH]; simpl.
  - reflexivity.
  - rewrite filter_cons. case_decide.
    + rewrite (count_fold_shift b l 0 1), IH. simpl length. lia.
    + exact IH.
Qed.

Lemma countTiles_tilesOfType (G : Grid) (b : BuildingType.t) :
  countTiles G b = Z.of_nat (length (tilesOfType G b)).
Proof. rewrite countTiles_flat. apply count_fold_filter. Qed.

(** C4.  An absent goal and a completed goal evaluate to false; any other
    goal (with the positive [targetValue] every goal has) evaluates to
    true exactly when the threshold of its target type is met: money,
    population, or the number of tiles of the goal's building type, that
    is, the length of the list of the grid's tiles of that type. *)
Theorem checkGoalCompletion_spec (G : Grid) (S : CityStats.t) (g : AIGoal.t) :
  0 < AIGoal.targetValue g ->
  checkGoalCompletion G S None = false
  /\ (AIGoal.completed g = true -> checkGoalCompletion G S (Some g) = false)
  /\ (AIGoal.completed g = false ->
      (checkGoalCompletion G S (Some g) = true <-> thresholdMet G S g)).
Proof.
  intros Hpos. split; [reflexivity |]. split.
  - intros Hc. unfold checkGoalCompletion. rewrite Hc. reflexivity.
  - intros Hc. rewrite checkGoalCompletion_cases. unfold thresholdMet, matchingTiles.
    destruct (AIGoal.targetType g); [tauto | tauto |].
    destruct (AIGoal.buildingType g) as [b|]; split.
    + intros [_ (b' & Hb & H)]. injection Hb as ->.
      rewrite <- countTiles_tilesOfType. exact H.
    + intros H. split; [exact Hc |]. exists b. split; [reflexivity |].
      rewrite countTiles_tilesOfType. exact H.
    + intros [_ (b' & Hb & _)]. discriminate.
    + simpl. lia.
Qed.

(** The goal "one road": met on the city with one road tile, whose list
    of road tiles is that one tile; not met on the empty city, which has
    none. *)
Lemma checkGoalCompletion_spec_witness :
  (0 < AIGoal.targetValue goalOneRoad
   /\ AIGoal.completed goalOneRoad = false
   /\ tilesOfType oneRoadCity BuildingType.Road = [TileData.mk 0 0 BuildingType.Road]
   /\ tilesOfType createInitialGrid BuildingType.Road = [])
  /\ checkGoalCompletion oneRoadCity INITIAL_STATS (Some goalOneRoad) = true
  /\ checkGoalCompletion createInitialGrid INITIAL_STATS (Some goalOneRoad) = false
  /\ checkGoalCompletion oneRoadCity INITIAL_STATS None = false.
Proof.
  split.
  { split; [reflexivity |]. split; [reflexivity |].
    split; vm_compute; reflexivity. }
  destruct (checkGoalCompletion_spec oneRoadCity INITIAL_STATS goalOneRoad)
    as (Hnone & _ & Hopen); [reflexivity |].
  destruct (checkGoalCompletion_spec createInitialGrid INITIAL_STATS goalOneRoad)
    as (_ & _ & Hopen'); [reflexivity |].
  split.
  - apply (Hopen eq_refl). vm_compute. discriminate.
  - split; [| exact Hnone].
    destruct (checkGoalCompletion createInitialGrid INITIAL_STATS (Some goalOneRoad))
      eqn:Hcheck; [| reflexivity].
    exfalso. apply (proj1 (Hopen' eq_refl) eq_refl). vm_compute. reflexivity.
Defined.

(** One road tile meets the goal; a goal already completed is not met
    again; a count goal that names no building type is never met. *)
Example checkGoalCompletion_samples :
  checkGoalCompletion oneRoadCity INITIAL_STATS (Some goalOneRoad) = true
  /\ checkGoalCompletion oneRoadCity INITIAL_STATS
       (Some (AIGoal.complete goalOneRoad)) = false
  /\ checkGoalCompletion createInitialGrid INITIAL_STATS (Some goalOneRoad) = false
  /\ checkGoalCompletion oneRoadCity INITIAL_STATS
       (Some (AIGoal.mk "Build more" TargetType.building_count 1 None 50 false))
     = false.
Proof. vm_compute. repeat split. Qed.

(** ** Reading and replacing tiles *)

Lemma tileAt_in_range grid x y :
  wf_grid grid -> (x < GRID_SIZE)%nat -> (y < GRID_SIZE)%nat ->
  is_Some (tileAt grid x y).
Proof.
  intros [Hlen Hrows] Hx Hy. unfold tileAt.
  destruct (lookup_lt_is_Some_2 grid y) as [row Hrow]; [lia |].
  rewrite Hrow. simpl. apply lookup_lt_is_Some_2.
  rewrite (Forall_lookup_1 _ _ _ _ Hrows Hrow). exact Hx.
Qed.

Lemma tileAt_replaceTile_eq grid x y old tile :
  tileAt grid x y = Some old -> tileAt (replaceTile grid x y tile) x y = Some tile.
Proof.
  unfold tileAt, replaceTile. intros H.
  rewrite list_lookup_alter_eq.
  destruct (grid !! y) as [row|]; simpl in *; [| discriminate].
  apply list_lookup_insert_eq. eapply lookup_lt_Some. exact H.
Qed.

Lemma tileAt_replaceTile_ne grid x y tile i j :
  (i, j) <> (x, y) -> tileAt (replaceTile grid x y tile) i j = tileAt grid i j.
Proof.
  unfold tileAt, replaceTile. intros Hne.
  destruct (decide (y = j)) as [-> | Hy].
  - rewrite list_lookup_alter_eq.
    destruct (grid !! j) as [row|]; simpl; [| reflexivity].
    apply list_lookup_insert_ne. congruence.
  - rewrite list_lookup_alter_ne by exact Hy. reflexivity.
Qed.

Lemma replaceTile_wf grid x y tile :
  wf_grid grid -> wf_grid (replaceTile grid x y tile).
Proof.
  intros [Hlen Hrows]. unfold replaceTile. split.
  - rewrite length_alter. exact Hlen.
  - apply Forall_alter; [exact Hrows |].
    intros row _ Hrow. rewrite length_insert. exact Hrow.
Qed.

(** ** placeBuilding *)

Ltac split_guards :=
  repeat first [ case_decide | case_bool_decide ].

(** The two revisions of the store place and demolish identically. *)
Lemma placeBuilding_revisions_agree now x y s :
  ModularStore.placeBuilding now x y s = Store.placeBuilding now x y s.
Proof.
  unfold ModularStore.placeBuilding, Store.placeBuilding.
  destruct (GameStore.isPaused s); [reflexivity |].
  destruct (tileAt (GameStore.grid s) x y) as [tile|]; [| reflexivity]. simpl.
  unfold canAfford, Lib.canAffordBuilding, DEMOLISH_COST.
  split_guards; try reflexivity; try contradiction; congruence.
Qed.

(** A placement that throws is one outside the grid while running. *)
Lemma placeBuilding_returns now x y s :
  is_Some (tileAt (GameStore.grid s) x y) \/ GameStore.isPaused s = true ->
  is_Some (Store.placeBuilding now x y s).
Proof.
  unfold Store.placeBuilding. intros [[tile Ht] | Hp].
  - rewrite Ht. simpl.
    destruct (GameStore.isPaused s); [eauto |].
    destruct (Lib.canAffordBuilding _ _); split_guards; eauto.
  - rewrite Hp. eauto.
Qed.

(** C5.  While the game runs, a placement on an in-range tile that fails
    the affordability check (bulldozing a building with less than the
    demolition cost, or building on an empty tile with less than the
    tool's cost) returns a store whose news feed ends with a new negative
    item, with the audio cue "error" played, and with grid and stats (so
    money) exactly as before: the returned store is the old one after
    [addNews] and [play "error"], nothing else. *)
Theorem placeBuilding_rejected now x y (s : GameStore.t) (tile : TileData.t) :
  GameStore.isPaused s = false ->
  tileAt (GameStore.grid s) x y = Some tile ->
  (GameStore.selectedTool s = BuildingType.None
   /\ TileData.buildingType tile <> BuildingType.None
   /\ CityStats.money (GameStore.stats s) < DEMOLISH_COST)
  \/ (GameStore.selectedTool s <> BuildingType.None
      /\ TileData.buildingType tile = BuildingType.None
      /\ CityStats.money (GameStore.stats s)
         < BuildingConfig.cost (BUILDINGS (GameStore.selectedTool s))) ->
  exists s' news,
    Store.placeBuilding now x y s = Some s'
    /\ NewsItem.type news = NewsType.negative
    /\ GameStore.newsFeed s' = sliceLast12 (GameStore.newsFeed s) ++ [news]
    /\ GameStore.grid s' = GameStore.grid s
    /\ GameStore.stats s' = GameStore.stats s
    /\ GameStore.played s' = GameStore.played s ++ ["error"]
    /\ s' = GameStore.play "error" (addNews news s).
Proof.
  intros Hrun Htile Hcase. unfold Store.placeBuilding.
  rewrite Hrun, Htile. simpl.
  destruct Hcase as [(Htool & Hocc & Hlow) | (Htool & Hfree & Hlow)].
  - rewrite decide_True by exact Htool.
    rewrite decide_True by exact Hocc.
    unfold DEMOLISH_COST in Hlow. rewrite decide_False by lia.
    eexists _, (NewsItem.mk _ _ NewsType.negative).
    split; [reflexivity |]. simpl. repeat split.
  - rewrite decide_False by exact Htool.
    rewrite decide_True by exact Hfree.
    unfold Lib.canAffordBuilding. rewrite orZero_id.
    rewrite bool_decide_eq_false_2 by lia.
    eexists _, (NewsItem.mk _ _ NewsType.negative).
    split; [reflexivity |]. simpl. repeat split.
Qed.

Lemma placeBuilding_rejected_witness :
  exists s' news,
    Store.placeBuilding 1700000000000 0 0 brokeStore = Some s'
    /\ NewsItem.type news = NewsType.negative
    /\ GameStore.newsFeed s' = sliceLast12 (GameStore.newsFeed brokeStore) ++ [news]
    /\ GameStore.grid s' = GameStore.grid brokeStore
    /\ GameStore.stats s' = GameStore.stats brokeStore
    /\ GameStore.played s' = GameStore.played brokeStore ++ ["error"]
    /\ s' = GameStore.play "error" (addNews news brokeStore).
Proof.
  apply (placeBuilding_rejected 1700000000000 0 0 brokeStore
           (TileData.mk 0 0 BuildingType.None)).
  - reflexivity.
  - reflexivity.
  - right. split; [discriminate | split; [reflexivity | simpl; lia]].
Defined.

(** The rejected demolition, evaluated: the message and the timestamp id. *)
Example demolition_rejected_news :
  GameStore.newsFeed <$> Store.placeBuilding 1700000000000 0 0 brokeDemolishStore
  = Some [NewsItem.mk "1700000000000" "Cannot afford demolition." NewsType.negative].
Proof. vm_compute. reflexivity. Qed.

(** C6.  While the game runs, bulldozing an in-range tile that is already
    empty, and building on an in-range tile that is occupied, both return
    the store unchanged: grid, money, news feed and everything else. *)
Theorem placeBuilding_noop now x y (s : GameStore.t) (tile : TileData.t) :
  GameStore.isPaused s = false ->
  tileAt (GameStore.grid s) x y = Some tile ->
  (GameStore.selectedTool s = BuildingType.None
   /\ TileData.buildingType tile = BuildingType.None)
  \/ (GameStore.selectedTool s <> BuildingType.None
      /\ TileData.buildingType tile <> BuildingType.None) ->
  Store.placeBuilding now x y s = Some s.
Proof.
  intros Hrun Htile Hcase. unfold Store.placeBuilding.
  rewrite Hrun, Htile. simpl.
  destruct Hcase as [(Htool & Hfree) | (Htool & Hocc)].
  - rewrite decide_True by exact Htool.
    rewrite decide_False by (intros Hn; apply Hn; exact Hfree). reflexivity.
  - rewrite decide_False by exact Htool.
    rewrite decide_False by exact Hocc. reflexivity.
Qed.

Lemma placeBuilding_noop_witness :
  Store.placeBuilding 1700000000000 3 4 (setTool BuildingType.None initialStore)
  = Some (setTool BuildingType.None initialStore)
  /\ Store.placeBuilding 1700000000000 0 0
       (setTool BuildingType.Park brokeDemolishStore)
     = Some (setTool BuildingType.Park brokeDemolishStore).
Proof.
  split.
  - apply (placeBuilding_noop 1700000000000 3 4
             (setTool BuildingType.None initialStore)
             (TileData.mk 3 4 BuildingType.None)).
    + reflexivity.
    + reflexivity.
    + left. split; reflexivity.
  - apply (placeBuilding_noop 1700000000000 0 0
             (setTool BuildingType.Park brokeDemolishStore)
             (TileData.mk 0 0 BuildingType.Road)).
    + reflexivity.
    + reflexivity.
    + right. split; discriminate.
Defined.

(** ** The store invariant: a full grid, a non-negative treasury, a
       positive reward *)

Lemma placeBuilding_invariant now x y s s' :
  store_invariant s -> Store.placeBuilding now x y s = Some s' -> store_invariant s'.
Proof.
  intros Hinv. pose proof Hinv as (Hwf & Hmoney & Hgoal).
  unfold Store.placeBuilding.
  destruct (GameStore.isPaused s).
  { intros [= <-]. exact Hinv. }
  destruct (tileAt (GameStore.grid s) x y) as [tile|]; simpl; [| discriminate].
  destruct (Lib.canAffordBuilding _ _) eqn:Hafford;
    [apply bool_decide_eq_true in Hafford; rewrite orZero_id in Hafford
    | clear Hafford];
    split_guards; intros [= <-]; try exact Hinv.
  all: unfold store_invariant; simpl.
  all: (split; [| split]); auto using replaceTile_wf; lia.
Qed.

Lemma tick_invariant s :
  store_invariant s ->
  exists s', Store.tick s = Some s'
    /\ store_invariant s'
    /\ CityStats.money (GameStore.stats s) <= CityStats.money (GameStore.stats s').
Proof.
  intros Hinv. pose proof Hinv as (Hwf & Hmoney & Hgoal). unfold Store.tick.
  destruct (GameStore.isPaused s).
  { exists s. split; [reflexivity | split; [exact Hinv | lia]]. }
  rewrite calculateNextDay_copies_agree.
  destruct (calculateNextDay_total (GameStore.stats s) (GameStore.grid s) Hwf)
    as (tally & _ & _ & Hincome & _ & ->).
  eexists. split; [reflexivity |]. unfold store_invariant. simpl.
  split; [| lia]. split; [exact Hwf | split; [lia |]].
  intros g. destruct (GameStore.currentGoal s) as [goal|]; [| discriminate].
  specialize (Hgoal goal eq_refl).
  destruct (GameStore.aiEnabled s && negb (AIGoal.completed goal)).
  - match goal with |- (if ?b then _ else _) = _ -> _ => destruct b end;
      intros [= <-]; exact Hgoal.
  - intros [= <-]. exact Hgoal.
Qed.

Lemma claimReward_invariant now s :
  store_invariant s -> store_invariant (claimReward now s).
Proof.
  intros Hinv. pose proof Hinv as (Hwf & Hmoney & Hgoal). unfold claimReward.
  destruct (GameStore.currentGoal s) as [goal|] eqn:Hcur; [| exact Hinv].
  destruct (AIGoal.completed goal); [| exact Hinv].
  specialize (Hgoal goal eq_refl). unfold store_invariant. simpl.
  split; [exact Hwf | split; [lia | discriminate]].
Qed.

Lemma initialStore_invariant : store_invariant initialStore.
Proof.
  split; [exact createInitialGrid_wf |]. split; [simpl; unfold INITIAL_MONEY; lia |].
  discriminate.
Qed.

Lemma run_invariant c s :
  admissible c -> store_invariant s -> store_invariant (run c s).
Proof.
  intros Hadm Hinv. pose proof Hinv as (Hwf & Hmoney & Hgoal).
  destruct c; simpl; try exact Hinv.
  - destruct (Store.placeBuilding now x y s) as [s'|] eqn:Hp; simpl;
      [eapply placeBuilding_invariant; eauto | exact Hinv].
  - destruct (tick_invariant s Hinv) as (s' & -> & Hinv' & _). exact Hinv'.
  - apply claimReward_invariant. exact Hinv.
  - unfold store_invariant. simpl. split; [exact Hwf | split; [exact Hmoney |]].
    intros g ->. destruct Hadm as [_ Hreward]. exact Hreward.
  - unfold store_invariant. simpl.
    split; [apply createInitialGrid_wf | split; [unfold INITIAL_MONEY; lia |]].
    discriminate.
Qed.

Lemma reachable_invariant s : reachable s -> store_invariant s.
Proof.
  induction 1 as [| c s _ IH Hadm].
  - exact initialStore_invariant.
  - apply run_invariant; assumption.
Qed.

(** No reachable state has a negative treasury. *)
Corollary reachable_money_nonneg s :
  reachable s -> 0 <= CityStats.money (GameStore.stats s).
Proof. intros H. apply (reachable_invariant s H). Qed.

(** C7.  From a reachable store state with a non-negative treasury:
    every placement that returns (and each in-range one does) leaves the
    treasury non-negative; the tick returns and does not lower it; claiming
    the reward leaves it non-negative. *)
Theorem money_never_negative (s : GameStore.t) :
  reachable s ->
  0 <= CityStats.money (GameStore.stats s) ->
  (forall now x y, (x < GRID_SIZE)%nat -> (y < GRID_SIZE)%nat ->
     exists s', Store.placeBuilding now x y s = Some s'
                /\ 0 <= CityStats.money (GameStore.stats s'))
  /\ (forall now x y s', Store.placeBuilding now x y s = Some s' ->
        0 <= CityStats.money (GameStore.stats s'))
  /\ (exists s', Store.tick s = Some s'
                 /\ 0 <= CityStats.money (GameStore.stats s'))
  /\ (forall now, 0 <= CityStats.money (GameStore.stats (claimReward now s))).
Proof.
  intros Hreach _. pose proof (reachable_invariant s Hreach) as Hinv.
  assert (Hplace : forall now x y s', Store.placeBuilding now x y s = Some s' ->
                     0 <= CityStats.money (GameStore.stats s')).
  { intros now x y s' Hp. apply (placeBuilding_invariant now x y s s' Hinv Hp). }
  split; [| split; [exact Hplace | split]].
  - intros now x y Hx Hy.
    destruct (placeBuilding_returns now x y s) as [s' Hs'].
    { left. apply tileAt_in_range; [apply Hinv | exact Hx | exact Hy]. }
    exists s'. split; [exact Hs' | eapply Hplace; exact Hs'].
  - destruct (tick_invariant s Hinv) as (s' & Ht & Hinv' & _).
    exists s'. split; [exact Ht | apply Hinv'].
  - intros now. apply (claimReward_invariant now s Hinv).
Qed.

Lemma money_never_negative_witness :
  (forall now x y, (x < GRID_SIZE)%nat -> (y < GRID_SIZE)%nat ->
     exists s', Store.placeBuilding now x y initialStore = Some s'
                /\ 0 <= CityStats.money (GameStore.stats s'))
  /\ (forall now x y s', Store.placeBuilding now x y initialStore = Some s' ->
        0 <= CityStats.money (GameStore.stats s'))
  /\ (exists s', Store.tick initialStore = Some s'
                 /\ 0 <= CityStats.money (GameStore.stats s'))
  /\ (forall now,
        0 <= CityStats.money (GameStore.stats (claimReward now initialStore))).
Proof.
  apply (money_never_negative initialStore).
  - exact reachable_init.
  - vm_compute. discriminate.
Defined.

(** ** claimReward *)

(** C8.  Without a current goal, or with one that is not completed,
    [claimReward] returns the store unchanged.  With a completed goal the
    treasury grows by exactly its reward, the current goal becomes absent,
    one positive news item is appended, and grid, population and day are
    as before. *)
Theorem claimReward_spec now (s : GameStore.t) :
  ((GameStore.currentGoal s = None
    \/ exists g, GameStore.currentGoal s = Some g /\ AIGoal.completed g = false) ->
   claimReward now s = s)
  /\ (forall g, GameStore.currentGoal s = Some g -> AIGoal.completed g = true ->
      let s' := claimReward now s in
      CityStats.money (GameStore.stats s')
        = CityStats.money (GameStore.stats s) + AIGoal.reward g
      /\ GameStore.currentGoal s' = None
      /\ (exists news, NewsItem.type news = NewsType.positive
            /\ GameStore.newsFeed s' = sliceLast12 (GameStore.newsFeed s) ++ [news])
      /\ GameStore.grid s' = GameStore.grid s
      /\ CityStats.population (GameStore.stats s')
           = CityStats.population (GameStore.stats s)
      /\ CityStats.day (GameStore.stats s') = CityStats.day (GameStore.stats s)).
Proof.
  unfold claimReward. split.
  - intros [-> | (g & -> & ->)]; reflexivity.
  - intros g -> ->. simpl.
    split; [reflexivity | split; [reflexivity | split]].
    + eexists (NewsItem.mk _ _ NewsType.positive). split; reflexivity.
    + split; [reflexivity | split; reflexivity].
Qed.

(** The spec's scenario, evaluated: 2000 in the treasury, reward 500. *)
Lemma claimReward_spec_witness :
  CityStats.money (GameStore.stats (claimReward 1700000000000 rewardStore)) = 2500
  /\ GameStore.currentGoal (claimReward 1700000000000 rewardStore) = None
  /\ GameStore.newsFeed (claimReward 1700000000000 rewardStore)
     = [NewsItem.mk "1700000000000" "Goal achieved! 500 collected." NewsType.positive]
  /\ claimReward 1700000000000 initialStore = initialStore.
Proof.
  pose proof (claimReward_spec 1700000000000 rewardStore) as [_ Hclaim].
  destruct (Hclaim goal2000 eq_refl eq_refl) as (Hmoney & Hgoal & _).
  split; [exact Hmoney | split; [exact Hgoal | split]].
  - vm_compute. reflexivity.
  - apply (claimReward_spec 1700000000000 initialStore). left. reflexivity.
Defined.

(** ** The frame of placeBuilding *)

(** Every outcome of a placement: the store as it was, a rejection, or
    one tile replaced by itself with another building type. *)
Lemma placeBuilding_grid now x y s s' :
  Store.placeBuilding now x y s = Some s' ->
  GameStore.grid s' = GameStore.grid s
  \/ exists tile b, tileAt (GameStore.grid s) x y = Some tile
       /\ GameStore.grid s'
          = replaceTile (GameStore.grid s) x y (TileData.withBuildingType tile b).
Proof.
  unfold Store.placeBuilding.
  destruct (GameStore.isPaused s); [intros [= <-]; left; reflexivity |].
  destruct (tileAt (GameStore.grid s) x y) as [tile|]; simpl; [| discriminate].
  destruct (Lib.canAffordBuilding _ _); split_guards; intros [= <-];
    solve [left; reflexivity | right; eauto].
Qed.

(** C10.  A placement on an in-range tile returns, and in the new grid
    every tile other than the one at (x, y) is the tile it was; at every
    position, (x, y) included, the tile's own [x] and [y] are what they
    were; and the grid keeps its shape.  Both revisions of the store. *)
Theorem placeBuilding_frame now x y (s : GameStore.t) :
  is_Some (tileAt (GameStore.grid s) x y) ->
  exists s',
    Store.placeBuilding now x y s = Some s'
    /\ ModularStore.placeBuilding now x y s = Some s'
    /\ (forall i j, (i, j) <> (x, y) ->
          tileAt (GameStore.grid s') i j = tileAt (GameStore.grid s) i j)
    /\ (forall i j,
          TileData.x <$> tileAt (GameStore.grid s') i j
            = TileData.x <$> tileAt (GameStore.grid s) i j
          /\ TileData.y <$> tileAt (GameStore.grid s') i j
               = TileData.y <$> tileAt (GameStore.grid s) i j)
    /\ length (GameStore.grid s') = length (GameStore.grid s)
    /\ length <$> GameStore.grid s' = length <$> GameStore.grid s.
Proof.
  intros Hin.
  destruct (placeBuilding_returns now x y s (or_introl Hin)) as [s' Hs'].
  exists s'. split; [exact Hs' |].
  split; [rewrite placeBuilding_revisions_agree; exact Hs' |].
  destruct (placeBuilding_grid now x y s s' Hs') as [-> | (tile & b & Htile & ->)].
  { repeat split; reflexivity. }
  split; [| split; [| split]].
  - intros i j Hne. apply tileAt_replaceTile_ne. exact Hne.
  - intros i j. destruct (decide ((i, j) = (x, y))) as [[= -> ->] | Hne].
    + rewrite (tileAt_replaceTile_eq _ _ _ _ _ Htile), Htile. split; reflexivity.
    + rewrite (tileAt_replaceTile_ne _ _ _ _ _ _ Hne). split; reflexivity.
  - apply length_alter.
  - unfold replaceTile. apply list_eq. intros k.
    rewrite !list_lookup_fmap.
    destruct (decide (y = k)) as [<- | Hk].
    + rewrite list_lookup_alter_eq. destruct (GameStore.grid s !! y); simpl;
        [rewrite length_insert |]; reflexivity.
    + rewrite list_lookup_alter_ne by exact Hk. reflexivity.
Qed.

(** Building a road at (2, 1) of the fresh city: that tile changes its
    type and keeps its coordinates, its neighbour is untouched. *)
Lemma placeBuilding_frame_witness :
  exists s',
    Store.placeBuilding 1700000000000 2 1 initialStore = Some s'
    /\ ModularStore.placeBuilding 1700000000000 2 1 initialStore = Some s'
    /\ (forall i j, (i, j) <> (2, 1)%nat ->
          tileAt (GameStore.grid s') i j = tileAt (GameStore.grid initialStore) i j)
    /\ (forall i j,
          TileData.x <$> tileAt (GameStore.grid s') i j
            = TileData.x <$> tileAt (GameStore.grid initialStore) i j
          /\ TileData.y <$> tileAt (GameStore.grid s') i j
               = TileData.y <$> tileAt (GameStore.grid initialStore) i j)
    /\ length (GameStore.grid s') = length (GameStore.grid initialStore)
    /\ length <$> GameStore.grid s' = length <$> GameStore.grid initialStore.
Proof.
  apply (placeBuilding_frame 1700000000000 2 1 initialStore).
  exists (TileData.mk 2 1 BuildingType.None). reflexivity.
Defined.

Example placeBuilding_road_at_2_1 :
  (s' ← Store.placeBuilding 1700000000000 2 1 initialStore;
   t ← tileAt (GameStore.grid s') 2 1;
   Some (t, CityStats.money (GameStore.stats s'), GameStore.played s'))
  = Some (TileData.mk 2 1 BuildingType.Road, 990, ["build"]).
Proof. vm_compute. reflexivity. Qed.

(** ** tick: the two revisions *)

(** The per-type dictionary built by the older tick holds, for each
    building type, the number the counting loop finds. *)
Lemma buildingCounts_fold b (l : list TileData.t) (m : gmap BuildingType.t Z) :
  default 0
    (foldl (fun counts t =>
              <[TileData.buildingType t :=
                  orZero (default 0 (counts !! TileData.buildingType t)) + 1]>
                counts) m l
       !! b)
  = foldl (fun count tile =>
             if decide (TileData.buildingType tile = b) then count + 1 else count)
          (default 0 (m !! b)) l.
Proof.
  revert m. induction l as [|t l IH]; intros m; simpl.
  - reflexivity.
  - rewrite IH. f_equal. rewrite orZero_id. case_decide as Hb.
    + rewrite Hb, lookup_insert_eq. reflexivity.
    + rewrite lookup_insert_ne by exact Hb. reflexivity.
Qed.

Lemma buildingCounts_lookup grid b :
  default 0 (Store.buildingCounts grid !! b) = countTiles grid b.
Proof.
  unfold Store.buildingCounts. rewrite buildingCounts_fold, countTiles_flat.
  rewrite lookup_empty. reflexivity.
Qed.

(** The older tick, with its goal check inlined, is the refactored tick
    that calls [checkGoalCompletion]. *)
Lemma tick_revisions_agree s : ModularStore.tick s = Store.tick s.
Proof.
  unfold ModularStore.tick, Store.tick.
  destruct (GameStore.isPaused s); [reflexivity |].
  change Lib.calculateNextDay with calculateNextDay.
  destruct (calculateNextDay (GameStore.stats s) (GameStore.grid s)) as [newStats|];
    [| reflexivity].
  simpl. f_equal. f_equal.
  destruct (GameStore.currentGoal s) as [goal|]; [| reflexivity].
  destruct (GameStore.aiEnabled s); [| reflexivity].
  unfold checkGoalCompletion.
  destruct (AIGoal.completed goal); [reflexivity |]. simpl.
  destruct (AIGoal.targetType goal); simpl.
  - destruct (bool_decide _); reflexivity.
  - destruct (bool_decide _); reflexivity.
  - destruct (AIGoal.buildingType goal) as [b|]; [| reflexivity].
    rewrite orZero_id, buildingCounts_lookup. case_decide; reflexivity.
Qed.

(** A completed goal is never handed back as met, and the tick leaves
    it alone: [completed] only goes from false to true. *)
Lemma tick_completed_one_way s s' g :
  Store.tick s = Some s' ->
  GameStore.currentGoal s = Some g -> AIGoal.completed g = true ->
  GameStore.currentGoal s' = Some g.
Proof.
  unfold Store.tick. intros Ht Hg Hc.
  destruct (GameStore.isPaused s); [injection Ht as <-; exact Hg |].
  destruct (Lib.calculateNextDay _ _); simpl in Ht; [| discriminate].
  injection Ht as <-. simpl. rewrite Hg, Hc, andb_false_r. reflexivity.
Qed.

(** The spec's scenarios for the tick. *)
Example tick_scenario_first_house :
  (s1 ← Store.placeBuilding 1700000000000 0 0
          (setTool BuildingType.Residential initialStore);
   s2 ← Store.tick s1;
   Some (GameStore.stats s1, GameStore.stats s2))
  = Some (CityStats.mk 900 0 1, CityStats.mk 900 5 2).
Proof. vm_compute. reflexivity. Qed.

Example tick_scenario_decay :
  (S1 ← calculateNextDay (CityStats.mk 0 12 1) createInitialGrid;
   S2 ← calculateNextDay S1 createInitialGrid;
   S3 ← calculateNextDay S2 createInitialGrid;
   S4 ← calculateNextDay S3 createInitialGrid;
   Some (CityStats.population <$> [S1; S2; S3; S4]))
  = Some [7; 2; 0; 0].
Proof. vm_compute. reflexivity. Qed.

(** ** Agents *)

Import Entities.



Lemma randomIndex_lookup {A : Type} entropy k (l : list A) :
  (0 < length l)%nat -> exists a, l !! randomIndex entropy k (length l) = Some a /\ a ∈ l.
Proof.
  intros Hpos.
  destruct (lookup_lt_is_Some_2 l (randomIndex entropy k (length l))) as [a Ha].
  { unfold randomIndex. apply Nat.mod_upper_bound. lia. }
  exists a. split; [exact Ha |]. eapply list_elem_of_lookup_2. exact Ha.
Qed.








(** * Further properties *)

(** ** The tick outside full-size grids *)

Lemma forRange_S {A : Type} n (body : nat -> A -> option A) init :
  forRange (S n) body init = forRange n body init ≫= body n.
Proof. unfold forRange. rewrite seq_S, foldl_app. reflexivity. Qed.

Lemma forRange_ext {A : Type} n (body body' : nat -> A -> option A) init :
  (forall i a, (i < n)%nat -> body i a = body' i a) ->
  forRange n body init = forRange n body' init.
Proof.
  intros Hext. induction n as [|n IH]; [reflexivity |].
  rewrite !forRange_S, IH by (intros; apply Hext; lia).
  destruct (forRange n body' init) as [a|]; simpl; [apply Hext; lia | reflexivity].
Qed.

(** What holds before the loop and is kept by each step that returns
    holds of the result. *)
Lemma forRange_preserves {A : Type} (P : A -> Prop) n (body : nat -> A -> option A)
  init r :
  (forall i a a', body i a = Some a' -> P a -> P a') ->
  P init -> forRange n body init = Some r -> P r.
Proof.
  intros Hstep Hinit. revert r. induction n as [|n IH]; intros r.
  - intros [= <-]. exact Hinit.
  - rewrite forRange_S. destruct (forRange n body init) as [a|]; simpl; [| discriminate].
    intros Hb. eapply Hstep; [exact Hb | apply IH; reflexivity].
Qed.

(** A loop that returned ran its body to the end at every index. *)
Lemma forRange_Some_steps {A : Type} n (body : nat -> A -> option A) init r :
  forRange n body init = Some r ->
  forall i, (i < n)%nat -> exists a, is_Some (body i a).
Proof.
  revert r. induction n as [|n IH]; intros r Hr i Hi; [lia |].
  rewrite forRange_S in Hr.
  destruct (forRange n body init) as [a|] eqn:Hn; simpl in Hr; [| discriminate].
  destruct (decide (i = n)) as [-> | Hne].
  - exists a. rewrite Hr. eauto.
  - apply (IH a eq_refl). lia.
Qed.

Lemma elem_of_windowCoords x y :
  (x, y) ∈ windowCoords <-> (x < GRID_SIZE)%nat /\ (y < GRID_SIZE)%nat.
Proof.
  unfold windowCoords. rewrite list_elem_of_bind. split.
  - intros (y' & Hin & Hy). rewrite elem_of_seq in Hy.
    rewrite list_elem_of_bind in Hin. destruct Hin as (x' & Hin & Hx).
    rewrite elem_of_seq in Hx. apply list_elem_of_singleton in Hin.
    injection Hin as -> ->. lia.
  - intros [Hx Hy]. exists y. rewrite elem_of_seq. split; [| lia].
    rewrite list_elem_of_bind. exists x. rewrite elem_of_seq.
    split; [apply list_elem_of_singleton; reflexivity | lia].
Qed.

Lemma window_covered_alt grid :
  window_covered grid
  <-> forall x y, (x < GRID_SIZE)%nat -> (y < GRID_SIZE)%nat -> is_Some (tileAt grid x y).
Proof.
  unfold window_covered. rewrite Forall_forall. split.
  - intros H x y Hx Hy. apply (H (x, y)). apply elem_of_windowCoords. auto.
  - intros H [x y] Hin. apply elem_of_windowCoords in Hin. apply H; tauto.
Qed.

Lemma same_window_alt G G' :
  same_window G G'
  <-> forall x y, (x < GRID_SIZE)%nat -> (y < GRID_SIZE)%nat ->
        tileAt G x y = tileAt G' x y.
Proof.
  unfold same_window. rewrite Forall_forall. split.
  - intros H x y Hx Hy. apply (H (x, y)). apply elem_of_windowCoords. auto.
  - intros H [x y] Hin. apply elem_of_windowCoords in Hin. apply H; tauto.
Qed.

Lemma wf_grid_covered grid : wf_grid grid -> window_covered grid.
Proof.
  intros Hwf. apply window_covered_alt. intros x y Hx Hy.
  apply tileAt_in_range; assumption.
Qed.

Lemma analyzeGrid_same_window G G' :
  same_window G G' -> analyzeGrid G' = analyzeGrid G.
Proof.
  rewrite same_window_alt. intros Hsame. unfold analyzeGrid.
  apply forRange_ext. intros y acc Hy.
  apply forRange_ext. intros x acc' Hx.
  rewrite (Hsame x y Hx Hy). reflexivity.
Qed.

Lemma analyzeGrid_returns grid : is_Some (analyzeGrid grid) <-> window_covered grid.
Proof.
  rewrite window_covered_alt. split.
  - intros [tally Ht] x y Hx Hy. unfold analyzeGrid in Ht.
    destruct (forRange_Some_steps _ _ _ _ Ht y Hy) as (acc & [acc' Hrow]).
    destruct (forRange_Some_steps _ _ _ _ Hrow x Hx) as (a & [a' Htile]).
    destruct (tileAt grid x y); [eauto | discriminate].
  - intros Hcov. unfold analyzeGrid.
    destruct (forRange_invariant (fun _ _ => True) GRID_SIZE
      (fun y acc => forRange GRID_SIZE (fun x acc =>
         tile ← tileAt grid x y; Some (visitTile tile acc)) acc) tally0)
      as (r & Hr & _); [exact I | | eauto].
    intros y acc Hy _.
    destruct (forRange_invariant (fun _ _ => True) GRID_SIZE
      (fun x acc => tile ← tileAt grid x y; Some (visitTile tile acc)) acc)
      as (r & Hr & _); [exact I | | eauto].
    intros x acc' Hx _. destruct (Hcov x y Hx Hy) as [tile ->]. simpl. eauto.
Qed.

Lemma calculateNextDay_total_iff S G :
  is_Some (calculateNextDay S G) <-> window_covered G.
Proof.
  rewrite <- analyzeGrid_returns. unfold calculateNextDay.
  destruct (analyzeGrid G); simpl; split; intros [? ?]; eauto; discriminate.
Qed.

(** X1.  The tick returns exactly when every tile with [x] and [y] below
    15 exists (otherwise it throws), and its result depends on no other
    tile: two grids that agree on those coordinates give the same next
    day, whatever else they hold. *)
Theorem calculateNextDay_reads_window (S : CityStats.t) (G : Grid) :
  (is_Some (calculateNextDay S G) <-> window_covered G)
  /\ (forall G', same_window G G' -> calculateNextDay S G' = calculateNextDay S G).
Proof.
  split.
  - apply calculateNextDay_total_iff.
  - intros G' Hsame. unfold calculateNextDay.
    rewrite (analyzeGrid_same_window G G' Hsame). reflexivity.
Qed.

(** A sixteenth row and column of houses change nothing; a missing row
    makes the tick throw. *)
Lemma calculateNextDay_reads_window_witness :
  calculateNextDay stats12 oversizedCity
    = calculateNextDay stats12 (take 15 <$> take 15 oversizedCity)
  /\ calculateNextDay stats12 shortCity = None.
Proof.
  split.
  - apply (calculateNextDay_reads_window stats12 (take 15 <$> take 15 oversizedCity)).
    apply (bool_decide_unpack _). vm_compute. exact I.
  - destruct (calculateNextDay stats12 shortCity) eqn:H; [| reflexivity].
    assert (Hc : window_covered shortCity).
    { apply (calculateNextDay_reads_window stats12 shortCity). rewrite H. eauto. }
    apply (bool_decide_pack _) in Hc. vm_compute in Hc. destruct Hc.
Defined.

(** ** What a tick does to the three statistics *)

Lemma visitTile_nonneg tile acc :
  0 <= dailyIncome acc /\ 0 <= dailyPopGrowth acc /\ 0 <= residentialCount acc ->
  0 <= dailyIncome (visitTile tile acc)
  /\ 0 <= dailyPopGrowth (visitTile tile acc)
  /\ 0 <= residentialCount (visitTile tile acc).
Proof.
  intros (Hi & Hp & Hr). unfold visitTile.
  pose proof (BUILDINGS_yield_nonneg (TileData.buildingType tile)).
  repeat case_decide; simpl; lia.
Qed.

Lemma analyzeGrid_nonneg grid tally :
  analyzeGrid grid = Some tally ->
  0 <= dailyIncome tally /\ 0 <= dailyPopGrowth tally /\ 0 <= residentialCount tally.
Proof.
  unfold analyzeGrid. intros Hscan.
  eapply (forRange_preserves
    (fun acc => 0 <= dailyIncome acc /\ 0 <= dailyPopGrowth acc
                /\ 0 <= residentialCount acc)); [| | exact Hscan].
  - intros y acc acc' Hrow Hacc.
    eapply (forRange_preserves
      (fun acc => 0 <= dailyIncome acc /\ 0 <= dailyPopGrowth acc
                  /\ 0 <= residentialCount acc)); [| exact Hacc | exact Hrow].
    intros x a a'. cbv beta.
    destruct (tileAt grid x y) as [tile|]; simpl; [| discriminate].
    intros [= <-]. apply visitTile_nonneg.
  - simpl. lia.
Qed.

Lemma next_day_facts (S : CityStats.t) (G : Grid) :
  window_covered G ->
  exists S', calculateNextDay S G = Some S'
    /\ CityStats.day S' = CityStats.day S + 1
    /\ CityStats.money S <= CityStats.money S'
    /\ (0 <= CityStats.population S -> 0 <= CityStats.population S').
Proof.
  intros Hcov. apply analyzeGrid_returns in Hcov. destruct Hcov as [tally Ht].
  destruct (analyzeGrid_nonneg G tally Ht) as (Hi & Hp & Hr).
  unfold calculateNextDay. rewrite Ht. simpl. eexists. split; [reflexivity |]. simpl.
  split; [reflexivity | split; [lia |]].
  intros Hpop. unfold MAX_POP_PER_RESIDENTIAL, NO_HOUSING_DECAY.
  repeat case_decide; lia.
Qed.


(** X2.  Whenever the tick returns (every tile of the 15 x 15 window
    exists), the day advances by exactly one, the treasury does not
    shrink, and a non-negative population stays non-negative. *)
Theorem calculateNextDay_bookkeeping (S : CityStats.t) (G : Grid) :
  window_covered G ->
  exists S', calculateNextDay S G = Some S'
    /\ CityStats.day S' = CityStats.day S + 1
    /\ CityStats.money S <= CityStats.money S'
    /\ (0 <= CityStats.population S -> 0 <= CityStats.population S').
Proof. apply next_day_facts. Qed.

Lemma calculateNextDay_bookkeeping_witness :
  exists S', calculateNextDay stats12 oversizedCity = Some S'
    /\ CityStats.day S' = CityStats.day stats12 + 1
    /\ CityStats.money stats12 <= CityStats.money S'
    /\ (0 <= CityStats.population stats12 -> 0 <= CityStats.population S').
Proof.
  apply (calculateNextDay_bookkeeping stats12 oversizedCity).
  apply (bool_decide_unpack _). vm_compute. exact I.
Defined.

Lemma countIn_cons b t l :
  countIn b (t :: l)
  = (if decide (TileData.buildingType t = b) then 1 else 0) + countIn b l.
Proof.
  unfold countIn. simpl. case_decide.
  - rewrite (count_fold_shift b l 0 1). lia.
  - lia.
Qed.

Lemma countTiles_countIn grid b : countTiles grid b = countIn b (concat grid).
Proof. apply countTiles_flat. Qed.

Lemma residentialCount_countIn (l : list TileData.t) :
  residentialCount (foldl (fun acc t => visitTile t acc) tally0 l)
  = countIn BuildingType.Residential l.
Proof.
  pose proof (visit_residentialCount l tally0 0) as H.
  change (residentialCount tally0) with 0 in H. unfold countIn. lia.
Qed.

(** The yields of a pass, per building type. *)
Lemma visit_yields (l : list TileData.t) (acc : Tally) :
  dailyIncome (foldl (fun acc t => visitTile t acc) acc l)
    = dailyIncome acc + 15 * countIn BuildingType.Commercial l
      + 40 * countIn BuildingType.Industrial l
  /\ dailyPopGrowth (foldl (fun acc t => visitTile t acc) acc l)
     = dailyPopGrowth acc + 5 * countIn BuildingType.Residential l
       + countIn BuildingType.Park l.
Proof.
  revert acc. induction l as [|t l IH]; intros acc.
  - simpl. unfold countIn. simpl. lia.
  - simpl. destruct (IH (visitTile t acc)) as [-> ->].
    rewrite !countIn_cons. unfold visitTile.
    destruct (TileData.buildingType t); simpl; repeat case_decide;
      try congruence; simpl; lia.
Qed.

Lemma next_day_closed_form (S : CityStats.t) (G : Grid) :
  wf_grid G ->
  calculateNextDay S G
  = Some (CityStats.mk
      (CityStats.money S + 15 * countTiles G BuildingType.Commercial
         + 40 * countTiles G BuildingType.Industrial)
      (if decide (countTiles G BuildingType.Residential = 0
                  /\ CityStats.population S > 0)
       then Z.max 0 (CityStats.population S - 5)
       else Z.min (CityStats.population S
                   + 5 * countTiles G BuildingType.Residential
                   + countTiles G BuildingType.Park)
                  (50 * countTiles G BuildingType.Residential))
      (CityStats.day S + 1)).
Proof.
  intros Hwf. unfold calculateNextDay. rewrite (analyzeGrid_wf G Hwf).
  rewrite !countTiles_countIn.
  pose proof (residentialCount_countIn (concat G)) as Hr.
  destruct (visit_yields (concat G) tally0) as [Hi Hp].
  change (dailyIncome tally0) with 0 in Hi.
  change (dailyPopGrowth tally0) with 0 in Hp.
  cbn [mbind option_bind].
  rewrite Hr, Hi, Hp.
  unfold MAX_POP_PER_RESIDENTIAL, NO_HOUSING_DECAY, CityStats.population.
  f_equal. f_equal; [lia |].
  repeat case_decide; lia.
Qed.


(** X3.  On a full-size grid the tick has a closed form in the numbers of
    tiles: the treasury grows by 15 per shop and 40 per factory; the
    population falls by 5 (not below 0) when there is no house and
    somebody left, and otherwise becomes
    [min (population + 5 * houses + parks, 50 * houses)]. *)
Theorem tick_closed_form (S : CityStats.t) (G : Grid) :
  wf_grid G ->
  calculateNextDay S G
  = Some (CityStats.mk
      (CityStats.money S + 15 * countTiles G BuildingType.Commercial
         + 40 * countTiles G BuildingType.Industrial)
      (if decide (countTiles G BuildingType.Residential = 0
                  /\ CityStats.population S > 0)
       then Z.max 0 (CityStats.population S - 5)
       else Z.min (CityStats.population S
                   + 5 * countTiles G BuildingType.Residential
                   + countTiles G BuildingType.Park)
                  (50 * countTiles G BuildingType.Residential))
      (CityStats.day S + 1)).
Proof. apply next_day_closed_form. Qed.

(** Two houses, a park, a shop and a factory; forty inhabitants. *)
Lemma tick_closed_form_witness :
  calculateNextDay (GameStore.stats smallTown) (GameStore.grid smallTown)
  = Some (CityStats.mk 555 51 8).
Proof.
  rewrite (tick_closed_form (GameStore.stats smallTown) (GameStore.grid smallTown)).
  - vm_compute. reflexivity.
  - apply (bool_decide_unpack _). vm_compute. exact I.
Defined.

(** ** Successive ticks *)

(** A tick of a running game replaces the statistics by the next day's
    and touches neither the grid nor the pause flag. *)
Lemma tick_running s S' :
  GameStore.isPaused s = false ->
  calculateNextDay (GameStore.stats s) (GameStore.grid s) = Some S' ->
  exists s', Store.tick s = Some s'
    /\ GameStore.stats s' = S'
    /\ GameStore.grid s' = GameStore.grid s
    /\ GameStore.isPaused s' = false.
Proof.
  intros Hrun Hnext. unfold Store.tick. rewrite Hrun.
  change Lib.calculateNextDay with calculateNextDay. rewrite Hnext. simpl.
  eexists. split; [reflexivity |]. simpl. auto.
Qed.

Ltac goal_decide :=
  match goal with |- context [decide ?P] => destruct (decide P) end.

(** X4.  In a running game on a full-size grid without any house, [n]
    ticks take a population [p >= 0] to [max 0 (p - 5 * n)]: it shrinks
    by five a day, reaches zero and stays there; the day counter has
    advanced by [n] and the grid is the same. *)
Theorem decay_over_days (n : nat) (s : GameStore.t) :
  wf_grid (GameStore.grid s) ->
  GameStore.isPaused s = false ->
  countTiles (GameStore.grid s) BuildingType.Residential = 0 ->
  0 <= CityStats.population (GameStore.stats s) ->
  exists s', ticks n s = Some s'
    /\ CityStats.population (GameStore.stats s')
       = Z.max 0 (CityStats.population (GameStore.stats s) - 5 * Z.of_nat n)
    /\ CityStats.day (GameStore.stats s')
       = CityStats.day (GameStore.stats s) + Z.of_nat n
    /\ GameStore.grid s' = GameStore.grid s.
Proof.
  revert s. induction n as [|n IH]; intros s Hwf Hrun Hres Hpop.
  - exists s. simpl. repeat split; lia.
  - pose proof (countTiles_nonneg (GameStore.grid s) BuildingType.Park) as Hpark.
    destruct (tick_running s _ Hrun (next_day_closed_form (GameStore.stats s) _ Hwf))
      as (s1 & Ht & Hstats & Hgrid & Hrun1).
    destruct (IH s1) as (s' & Hn & Hp' & Hd' & Hg').
    + rewrite Hgrid. exact Hwf.
    + exact Hrun1.
    + rewrite Hgrid. exact Hres.
    + rewrite Hstats. simpl. goal_decide; lia.
    + exists s'. simpl. rewrite Ht. simpl. split; [exact Hn |].
      rewrite Hp', Hd', Hg', Hgrid, Hstats. simpl.
      split; [goal_decide; lia | split; [lia | reflexivity]].
Qed.

Lemma decay_over_days_witness :
  exists s', ticks 3 ghostTown = Some s'
    /\ CityStats.population (GameStore.stats s')
       = Z.max 0 (CityStats.population (GameStore.stats ghostTown) - 5 * Z.of_nat 3)
    /\ CityStats.day (GameStore.stats s')
       = CityStats.day (GameStore.stats ghostTown) + Z.of_nat 3
    /\ GameStore.grid s' = GameStore.grid ghostTown.
Proof.
  apply (decay_over_days 3 ghostTown).
  - apply (bool_decide_unpack _). vm_compute. exact I.
  - reflexivity.
  - vm_compute. reflexivity.
  - vm_compute. discriminate.
Defined.

(** X5.  In a running game on a full-size grid with at least one house,
    after [n + 1] ticks the population is
    [min (p + (n + 1) * (5 * houses + parks), 50 * houses)]: it grows
    by the same amount every day until it meets the cap, and a
    population above the cap is cut to the cap by the first tick. *)
Theorem growth_over_days (n : nat) (s : GameStore.t) :
  wf_grid (GameStore.grid s) ->
  GameStore.isPaused s = false ->
  0 < countTiles (GameStore.grid s) BuildingType.Residential ->
  exists s', ticks (S n) s = Some s'
    /\ CityStats.population (GameStore.stats s')
       = Z.min (CityStats.population (GameStore.stats s)
                + (Z.of_nat n + 1)
                  * (5 * countTiles (GameStore.grid s) BuildingType.Residential
                     + countTiles (GameStore.grid s) BuildingType.Park))
               (50 * countTiles (GameStore.grid s) BuildingType.Residential).
Proof.
  revert s. induction n as [|n IH]; intros s Hwf Hrun Hres;
    pose proof (countTiles_nonneg (GameStore.grid s) BuildingType.Park) as Hpark;
    destruct (tick_running s _ Hrun (next_day_closed_form (GameStore.stats s) _ Hwf))
      as (s1 & Ht & Hstats & Hgrid & Hrun1).
  - exists s1. simpl. rewrite Ht. simpl. split; [reflexivity |].
    rewrite Hstats. simpl. rewrite decide_False by lia. f_equal. lia.
  - destruct (IH s1) as (s' & Hn & Hp').
    + rewrite Hgrid. exact Hwf.
    + exact Hrun1.
    + rewrite Hgrid. exact Hres.
    + exists s'. change (ticks (S (S n)) s) with (Store.tick s ≫= ticks (S n)).
      rewrite Ht. simpl. split; [exact Hn |].
      rewrite Hp', Hgrid, Hstats. simpl. rewrite decide_False by lia.
      set (g := 5 * countTiles (GameStore.grid s) BuildingType.Residential
                + countTiles (GameStore.grid s) BuildingType.Park) in *.
      assert (0 <= (Z.of_nat n + 1) * g) by (apply Z.mul_nonneg_nonneg; lia).
      replace (5 * countTiles (GameStore.grid s) BuildingType.Residential
               + countTiles (GameStore.grid s) BuildingType.Park) with g by reflexivity.
      replace ((Z.of_nat (S n) + 1) * g) with ((Z.of_nat n + 1) * g + g) by lia.
      lia.
Qed.

Lemma growth_over_days_witness :
  exists s', ticks 3 smallTown = Some s'
    /\ CityStats.population (GameStore.stats s')
       = Z.min (CityStats.population (GameStore.stats smallTown)
                + (Z.of_nat 2 + 1)
                  * (5 * countTiles (GameStore.grid smallTown) BuildingType.Residential
                     + countTiles (GameStore.grid smallTown) BuildingType.Park))
               (50 * countTiles (GameStore.grid smallTown) BuildingType.Residential).
Proof.
  apply (growth_over_days 2 smallTown).
  - apply (bool_decide_unpack _). vm_compute. exact I.
  - reflexivity.
  - vm_compute. reflexivity.
Defined.

Example growth_over_days_values :
  (CityStats.population ∘ GameStore.stats <$> ticks 3 smallTown) = Some 73
  /\ (CityStats.population ∘ GameStore.stats <$> ticks 9 smallTown) = Some 100.
Proof. vm_compute. split; reflexivity. Qed.

(** ** Placements that go through *)

(** X6.  While the game runs, building on an empty in-range tile with a
    treasury that covers the tool's cost returns a store in which that
    tile has the tool's type, exactly the cost has been deducted, the
    "build" cue has been played, and the news feed, the goal and all
    flags are as before. *)
Theorem placeBuilding_builds now x y (s : GameStore.t) (tile : TileData.t) :
  GameStore.isPaused s = false ->
  tileAt (GameStore.grid s) x y = Some tile ->
  GameStore.selectedTool s <> BuildingType.None ->
  TileData.buildingType tile = BuildingType.None ->
  CityStats.money (GameStore.stats s)
    >= BuildingConfig.cost (BUILDINGS (GameStore.selectedTool s)) ->
  exists s',
    Store.placeBuilding now x y s = Some s'
    /\ tileAt (GameStore.grid s') x y
       = Some (TileData.withBuildingType tile (GameStore.selectedTool s))
    /\ CityStats.money (GameStore.stats s')
       = CityStats.money (GameStore.stats s)
         - BuildingConfig.cost (BUILDINGS (GameStore.selectedTool s))
    /\ s' = GameStore.play "build"
              (GameStore.setGridStats (GameStore.grid s') (GameStore.stats s') s)
    /\ CityStats.population (GameStore.stats s')
       = CityStats.population (GameStore.stats s)
    /\ CityStats.day (GameStore.stats s') = CityStats.day (GameStore.stats s).
Proof.
  intros Hrun Htile Htool Hfree Hmoney. unfold Store.placeBuilding.
  rewrite Hrun, Htile. simpl.
  rewrite decide_False by exact Htool.
  rewrite decide_True by exact Hfree.
  unfold Lib.canAffordBuilding. rewrite orZero_id.
  rewrite bool_decide_eq_true_2 by exact Hmoney.
  eexists. split; [reflexivity |]. simpl.
  split; [eapply tileAt_replaceTile_eq; exact Htile |].
  repeat split.
Qed.

Lemma placeBuilding_builds_witness :
  exists s',
    Store.placeBuilding 1700000000000 5 6 smallTown = Some s'
    /\ tileAt (GameStore.grid s') 5 6
       = Some (TileData.withBuildingType (TileData.mk 5 6 BuildingType.None)
                 (GameStore.selectedTool smallTown))
    /\ CityStats.money (GameStore.stats s')
       = CityStats.money (GameStore.stats smallTown)
         - BuildingConfig.cost (BUILDINGS (GameStore.selectedTool smallTown))
    /\ s' = GameStore.play "build"
              (GameStore.setGridStats (GameStore.grid s') (GameStore.stats s')
                 smallTown)
    /\ CityStats.population (GameStore.stats s')
       = CityStats.population (GameStore.stats smallTown)
    /\ CityStats.day (GameStore.stats s') = CityStats.day (GameStore.stats smallTown).
Proof.
  apply (placeBuilding_builds 1700000000000 5 6 smallTown
           (TileData.mk 5 6 BuildingType.None)).
  - reflexivity.
  - reflexivity.
  - discriminate.
  - reflexivity.
  - vm_compute. discriminate.
Defined.



Lemma replaceTile_restore grid x y tile other :
  tileAt grid x y = Some tile ->
  replaceTile (replaceTile grid x y other) x y tile = grid.
Proof.
  unfold tileAt, replaceTile. intros Htile.
  destruct (grid !! y) as [row|] eqn:Hrow; simpl in Htile; [| discriminate].
  apply list_eq. intros k.
  destruct (decide (y = k)) as [<- | Hk].
  - rewrite !list_lookup_alter_eq, Hrow. simpl. f_equal.
    rewrite list_insert_insert_eq. apply list_insert_id. exact Htile.
  - rewrite !list_lookup_alter_ne by exact Hk. reflexivity.
Qed.

(** X8.  Building on an empty tile and bulldozing it again gives back the
    very grid one started from, and costs the price of the building plus
    5: from a running game whose treasury holds at least that much, the
    sequence place / select the bulldozer / place ends with the original
    grid and the treasury lower by [cost + 5]. *)
Theorem build_then_demolish now now' x y (s : GameStore.t) (tile : TileData.t) :
  GameStore.isPaused s = false ->
  tileAt (GameStore.grid s) x y = Some tile ->
  GameStore.selectedTool s <> BuildingType.None ->
  TileData.buildingType tile = BuildingType.None ->
  CityStats.money (GameStore.stats s)
    >= BuildingConfig.cost (BUILDINGS (GameStore.selectedTool s)) + 5 ->
  exists s1 s2,
    Store.placeBuilding now x y s = Some s1
    /\ Store.placeBuilding now' x y (setTool BuildingType.None s1) = Some s2
    /\ GameStore.grid s2 = GameStore.grid s
    /\ CityStats.money (GameStore.stats s2)
       = CityStats.money (GameStore.stats s)
         - BuildingConfig.cost (BUILDINGS (GameStore.selectedTool s)) - 5
    /\ GameStore.newsFeed s2 = GameStore.newsFeed s
    /\ GameStore.played s2 = GameStore.played s ++ ["build"; "bulldoze"].
Proof.
  intros Hrun Htile Htool Hfree Hmoney.
  assert (Hcost : 0 <= BuildingConfig.cost (BUILDINGS (GameStore.selectedTool s)))
    by (destruct (GameStore.selectedTool s); simpl; lia).
  unfold Store.placeBuilding at 1. rewrite Hrun, Htile. simpl.
  rewrite decide_False by exact Htool.
  rewrite decide_True by exact Hfree.
  unfold Lib.canAffordBuilding. rewrite orZero_id.
  rewrite bool_decide_eq_true_2 by lia.
  eexists. eexists. split; [reflexivity |].
  unfold Store.placeBuilding. simpl. rewrite Hrun.
  rewrite (tileAt_replaceTile_eq _ _ _ _ _ Htile). simpl.
  rewrite decide_True by (destruct (GameStore.selectedTool s); congruence).
  rewrite decide_True by lia.
  split; [reflexivity |]. simpl.
  split; [| split; [lia | split; [reflexivity |]]].
  - replace (TileData.withBuildingType
               (TileData.withBuildingType tile (GameStore.selectedTool s))
               BuildingType.None) with tile
      by (destruct tile; simpl in Hfree; subst; reflexivity).
    apply replaceTile_restore. exact Htile.
  - rewrite <- app_assoc. reflexivity.
Qed.

Lemma build_then_demolish_witness :
  exists s1 s2,
    Store.placeBuilding 1700000000000 5 6 smallTown = Some s1
    /\ Store.placeBuilding 1700000002000 5 6 (setTool BuildingType.None s1) = Some s2
    /\ GameStore.grid s2 = GameStore.grid smallTown
    /\ CityStats.money (GameStore.stats s2)
       = CityStats.money (GameStore.stats smallTown)
         - BuildingConfig.cost (BUILDINGS (GameStore.selectedTool smallTown)) - 5
    /\ GameStore.newsFeed s2 = GameStore.newsFeed smallTown
    /\ GameStore.played s2 = GameStore.played smallTown ++ ["build"; "bulldoze"].
Proof.
  apply (build_then_demolish 1700000000000 1700000002000 5 6 smallTown
           (TileData.mk 5 6 BuildingType.None)).
  - reflexivity.
  - reflexivity.
  - discriminate.
  - reflexivity.
  - vm_compute. discriminate.
Defined.

(** ** When the store's commands throw, and when they do nothing *)

(** X9.  The two commands that read the grid throw only while the game
    runs: [placeBuilding] exactly when no tile exists at (x, y), [tick]
    exactly when a tile of the 15 x 15 window is missing.  While the game
    is paused both return the store unchanged, whatever the coordinates
    and the grid. *)
Theorem store_throws_iff now x y (s : GameStore.t) :
  (Store.placeBuilding now x y s = None
   <-> GameStore.isPaused s = false /\ tileAt (GameStore.grid s) x y = None)
  /\ (Store.tick s = None
      <-> GameStore.isPaused s = false /\ ~ window_covered (GameStore.grid s))
  /\ (GameStore.isPaused s = true ->
      Store.placeBuilding now x y s = Some s /\ Store.tick s = Some s).
Proof.
  split; [| split].
  - unfold Store.placeBuilding.
    destruct (GameStore.isPaused s); [split; [discriminate | intros [? _]; discriminate] |].
    destruct (tileAt (GameStore.grid s) x y) as [tile|]; simpl.
    + split; [| intros [_ ?]; discriminate].
      destruct (Lib.canAffordBuilding _ _); split_guards; discriminate.
    + split; auto.
  - unfold Store.tick.
    destruct (GameStore.isPaused s); [split; [discriminate | intros [? _]; discriminate] |].
    change Lib.calculateNextDay with calculateNextDay.
    pose proof (calculateNextDay_total_iff (GameStore.stats s) (GameStore.grid s))
      as Hiff.
    destruct (calculateNextDay (GameStore.stats s) (GameStore.grid s)); simpl.
    + split; [discriminate |]. intros [_ Hn]. exfalso. apply Hn, Hiff. eauto.
    + split; [| reflexivity]. intros _. split; [reflexivity |].
      intros Hc. apply Hiff in Hc. destruct Hc as [? ?]. discriminate.
  - intros Hp. unfold Store.placeBuilding, Store.tick. rewrite Hp. split; reflexivity.
Qed.

(** A paused game ignores a click far outside the grid; the same click
    on the running game throws. *)
Lemma store_throws_iff_witness :
  Store.placeBuilding 1700000000000 99 99 (togglePause smallTown)
    = Some (togglePause smallTown)
  /\ Store.tick (togglePause smallTown) = Some (togglePause smallTown)
  /\ Store.placeBuilding 1700000000000 99 99 smallTown = None.
Proof.
  destruct (store_throws_iff 1700000000000 99 99 (togglePause smallTown))
    as (_ & _ & Hpaused).
  destruct (store_throws_iff 1700000000000 99 99 smallTown) as (Hthrow & _ & _).
  split; [apply Hpaused; reflexivity | split; [apply Hpaused; reflexivity |]].
  apply Hthrow. split; reflexivity.
Defined.

(** ** What every reachable state satisfies *)

Lemma placeBuilding_outcomes now x y s s' :
  Store.placeBuilding now x y s = Some s' ->
  s' = s
  \/ (exists news, s' = GameStore.play "error" (addNews news s))
  \/ (exists tile b cue m,
        tileAt (GameStore.grid s) x y = Some tile
        /\ s' = GameStore.play cue
                  (GameStore.setGridStats
                     (replaceTile (GameStore.grid s) x y (TileData.withBuildingType tile b))
                     (CityStats.withMoney (GameStore.stats s) m) s)).
Proof.
  unfold Store.placeBuilding.
  destruct (GameStore.isPaused s); [intros [= <-]; left; reflexivity |].
  destruct (tileAt (GameStore.grid s) x y) as [tile|]; simpl; [| discriminate].
  destruct (Lib.canAffordBuilding _ _); split_guards; intros [= <-];
    solve [ left; reflexivity
          | right; left; eauto
          | right; right; do 4 eexists; split; reflexivity ].
Qed.

Lemma tick_outcomes s s' :
  Store.tick s = Some s' ->
  s' = s
  \/ exists S' goal,
       calculateNextDay (GameStore.stats s) (GameStore.grid s) = Some S'
       /\ s' = GameStore.setStatsGoal S' goal s.
Proof.
  unfold Store.tick.
  destruct (GameStore.isPaused s); [intros [= <-]; left; reflexivity |].
  change Lib.calculateNextDay with calculateNextDay.
  destruct (calculateNextDay _ _) as [S'|]; simpl; [| discriminate].
  intros [= <-]. right. eauto.
Qed.

(** Induction over the commands, with the store invariant at hand. *)
Lemma reachable_induction (P : GameStore.t -> Prop) :
  P initialStore ->
  (forall c s, admissible c -> store_invariant s -> P s -> P (run c s)) ->
  forall s, reachable s -> P s.
Proof.
  intros Hinit Hstep s Hs. induction Hs as [| c s Hs IH Hadm].
  - exact Hinit.
  - apply Hstep; [exact Hadm | apply reachable_invariant; exact Hs | exact IH].
Qed.

Lemma sliceLast12_length feed :
  length (sliceLast12 feed) = Nat.min (length feed) 12.
Proof. unfold sliceLast12. rewrite length_drop. lia. Qed.

(** X10.  [addNews] keeps the twelve newest entries of the feed, in
    their order, drops the older ones, and puts the new item last; the
    feed it returns has [min (length, 12) + 1] entries, never more than
    thirteen. *)
Theorem addNews_ring (news : NewsItem.t) (s : GameStore.t) :
  exists dropped kept,
    GameStore.newsFeed s = dropped ++ kept
    /\ GameStore.newsFeed (addNews news s) = kept ++ [news]
    /\ length kept = Nat.min (length (GameStore.newsFeed s)) 12
    /\ (length (GameStore.newsFeed (addNews news s)) <= 13)%nat
    /\ last (GameStore.newsFeed (addNews news s)) = Some news.
Proof.
  exists (take (length (GameStore.newsFeed s) - 12) (GameStore.newsFeed s)),
         (sliceLast12 (GameStore.newsFeed s)).
  split; [unfold sliceLast12; symmetry; apply take_drop |].
  split; [reflexivity |].
  split; [apply sliceLast12_length |].
  simpl. rewrite length_app, sliceLast12_length, last_snoc. simpl.
  split; [lia | reflexivity].
Qed.

(** X11.  In every reachable state the news feed holds at most thirteen
    items. *)
Theorem reachable_feed_bounded (s : GameStore.t) :
  reachable s -> (length (GameStore.newsFeed s) <= 13)%nat.
Proof.
  revert s. apply reachable_induction; [simpl; lia |].
  intros c s _ _ IH.
  assert (Hadd : forall news t, GameStore.newsFeed t = GameStore.newsFeed s ->
            (length (GameStore.newsFeed (addNews news t)) <= 13)%nat).
  { intros news t Ht. simpl. rewrite length_app, sliceLast12_length. simpl. lia. }
  destruct c; simpl; try exact IH.
  - destruct (Store.placeBuilding now x y s) as [s'|] eqn:Hp; simpl; [| exact IH].
    destruct (placeBuilding_outcomes _ _ _ _ _ Hp)
      as [-> | [(news & ->) | (tile & b & cue & m & _ & ->)]];
      [exact IH | apply (Hadd news s); reflexivity | exact IH].
  - destruct (Store.tick s) as [s'|] eqn:Ht; simpl; [| exact IH].
    destruct (tick_outcomes _ _ Ht) as [-> | (S' & goal & _ & ->)]; exact IH.
  - unfold claimReward. destruct (GameStore.currentGoal s) as [g|]; [| exact IH].
    destruct (AIGoal.completed g); [| exact IH].
    apply (Hadd _ (GameStore.setStatsGoal _ Datatypes.None s)). reflexivity.
  - apply (Hadd news s). reflexivity.
  - lia.
Qed.

Lemma reachable_feed_bounded_witness :
  (length (GameStore.newsFeed
     (run (PlaceBuilding 1700000000000 0 0) (run (AddNews
        (NewsItem.mk "n1" "Welcome to the city" NewsType.neutral)) initialStore)))
   <= 13)%nat.
Proof.
  apply reachable_feed_bounded.
  apply reachable_run; [apply reachable_run; [exact reachable_init | exact I] | exact I].
Defined.

Lemma createInitialGrid_tileAt x y :
  tileAt createInitialGrid x y
  = if decide (x < GRID_SIZE /\ y < GRID_SIZE)%nat
    then Some (TileData.mk x y BuildingType.None) else None.
Proof.
  unfold tileAt, createInitialGrid.
  change (map ?f ?l) with (f <$> l).
  rewrite list_lookup_fmap.
  destruct (decide (y < GRID_SIZE)%nat) as [Hy | Hy].
  - rewrite lookup_seq_lt by exact Hy.
    cbn [fmap option_fmap option_map mbind option_bind].
    rewrite list_lookup_fmap.
    destruct (decide (x < GRID_SIZE)%nat) as [Hx | Hx].
    + rewrite lookup_seq_lt by exact Hx.
      cbn [fmap option_fmap option_map]. rewrite decide_True by auto. reflexivity.
    + rewrite lookup_seq_ge by lia.
      cbn [fmap option_fmap option_map]. rewrite decide_False by tauto. reflexivity.
  - rewrite lookup_seq_ge by lia.
    cbn [fmap option_fmap option_map mbind option_bind].
    rewrite decide_False by tauto. reflexivity.
Qed.

Lemma createInitialGrid_coherent : coherent_grid createInitialGrid.
Proof.
  intros x y t. rewrite createInitialGrid_tileAt.
  case_decide; [| discriminate]. intros [= <-]. split; reflexivity.
Qed.

Lemma replaceTile_coherent grid x y tile b :
  coherent_grid grid -> tileAt grid x y = Some tile ->
  coherent_grid (replaceTile grid x y (TileData.withBuildingType tile b)).
Proof.
  intros Hco Htile i j t.
  destruct (decide ((i, j) = (x, y))) as [[= -> ->] | Hne].
  - rewrite (tileAt_replaceTile_eq _ _ _ _ _ Htile). intros [= <-]. simpl.
    apply (Hco x y tile Htile).
  - rewrite (tileAt_replaceTile_ne _ _ _ _ _ _ Hne). apply Hco.
Qed.

(** X12.  In every reachable state the grid is 15 rows of 15 tiles and
    each tile carries its own position: the tile read at column [x], row
    [y] exists exactly when both are below 15, and its fields [x] and [y]
    are [x] and [y].  No command moves, adds or removes a tile. *)
Theorem reachable_grid_coherent (s : GameStore.t) :
  reachable s ->
  wf_grid (GameStore.grid s)
  /\ coherent_grid (GameStore.grid s)
  /\ (forall x y, is_Some (tileAt (GameStore.grid s) x y)
                  <-> (x < GRID_SIZE)%nat /\ (y < GRID_SIZE)%nat).
Proof.
  intros Hs. pose proof (reachable_invariant s Hs) as (Hwf & _).
  split; [exact Hwf | split].
  - clear Hwf. revert s Hs. apply reachable_induction; [exact createInitialGrid_coherent |].
    intros c s _ _ IH. destruct c; simpl; try exact IH.
    + destruct (Store.placeBuilding now x y s) as [s'|] eqn:Hp; simpl; [| exact IH].
      destruct (placeBuilding_outcomes _ _ _ _ _ Hp)
        as [-> | [(news & ->) | (tile & b & cue & m & Htile & ->)]];
        [exact IH | exact IH | simpl; apply replaceTile_coherent; assumption].
    + destruct (Store.tick s) as [s'|] eqn:Ht; simpl; [| exact IH].
      destruct (tick_outcomes _ _ Ht) as [-> | (S' & goal & _ & ->)]; exact IH.
    + unfold claimReward. destruct (GameStore.currentGoal s) as [g|]; [| exact IH].
      destruct (AIGoal.completed g); exact IH.
    + exact createInitialGrid_coherent.
  - intros x y. split.
    + intros [t Ht]. unfold tileAt in Ht. destruct Hwf as [Hlen Hrows].
      destruct (GameStore.grid s !! y) as [row|] eqn:Hrow; simpl in Ht; [| discriminate].
      pose proof (lookup_lt_Some _ _ _ Hrow) as Hy.
      pose proof (lookup_lt_Some _ _ _ Ht) as Hx.
      rewrite (Forall_lookup_1 _ _ _ _ Hrows Hrow) in Hx. lia.
    + intros [Hx Hy]. apply tileAt_in_range; assumption.
Qed.

Lemma reachable_grid_coherent_witness :
  wf_grid (GameStore.grid (run (PlaceBuilding 1700000000000 3 4) initialStore))
  /\ coherent_grid (GameStore.grid (run (PlaceBuilding 1700000000000 3 4) initialStore))
  /\ (forall x y,
        is_Some (tileAt (GameStore.grid
                           (run (PlaceBuilding 1700000000000 3 4) initialStore)) x y)
        <-> (x < GRID_SIZE)%nat /\ (y < GRID_SIZE)%nat).
Proof.
  apply reachable_grid_coherent.
  apply reachable_run; [exact reachable_init | exact I].
Defined.

(** X13.  In every reachable state the population is non-negative and
    the day is at least 1; only the tick changes either, and a new game
    sets them back to 0 and 1. *)
Theorem reachable_population_day (s : GameStore.t) :
  reachable s ->
  0 <= CityStats.population (GameStore.stats s)
  /\ 1 <= CityStats.day (GameStore.stats s).
Proof.
  revert s. apply reachable_induction; [simpl; lia |].
  intros c s _ Hinv IH. destruct c; simpl; try exact IH.
  - destruct (Store.placeBuilding now x y s) as [s'|] eqn:Hp; simpl; [| exact IH].
    destruct (placeBuilding_outcomes _ _ _ _ _ Hp)
      as [-> | [(news & ->) | (tile & b & cue & m & _ & ->)]]; exact IH.
  - destruct (Store.tick s) as [s'|] eqn:Ht; simpl; [| exact IH].
    destruct (tick_outcomes _ _ Ht) as [-> | (S' & goal & HS' & ->)]; [exact IH |].
    simpl.
    destruct (next_day_facts (GameStore.stats s) (GameStore.grid s))
      as (S'' & HS'' & Hday & _ & Hpop).
    { apply wf_grid_covered, Hinv. }
    rewrite HS' in HS''. injection HS'' as <-.
    split; [apply Hpop, IH | lia].
  - unfold claimReward. destruct (GameStore.currentGoal s) as [g|]; [| exact IH].
    destruct (AIGoal.completed g); exact IH.
  - lia.
Qed.

Lemma reachable_population_day_witness :
  0 <= CityStats.population (GameStore.stats (run Tick (run (StartGame true) initialStore)))
  /\ 1 <= CityStats.day (GameStore.stats (run Tick (run (StartGame true) initialStore))).
Proof.
  apply reachable_population_day.
  apply reachable_run; [apply reachable_run; [exact reachable_init | exact I] | exact I].
Defined.

(** ** The two revisions of the store, and the goal under the tick *)

(** X14.  The older store (demolition cost and goal check written
    inline, counts kept in a dictionary) and the refactored store
    ([canAfford], [DEMOLISH_COST], [checkGoalCompletion]) are the same
    functions: [placeBuilding] and [tick] return the same result, or throw
    alike, on every store state and every coordinate. *)
Theorem store_revisions_agree now x y (s : GameStore.t) :
  ModularStore.placeBuilding now x y s = Store.placeBuilding now x y s
  /\ ModularStore.tick s = Store.tick s.
Proof.
  split; [apply placeBuilding_revisions_agree | apply tick_revisions_agree].
Qed.

Lemma checkGoalCompletion_completed G S g :
  AIGoal.completed g = true -> checkGoalCompletion G S (Some g) = false.
Proof. intros Hc. unfold checkGoalCompletion. rewrite Hc. reflexivity. Qed.

Lemma tick_goal_after (s s' : GameStore.t) :
  GameStore.isPaused s = false ->
  Store.tick s = Some s' ->
  GameStore.currentGoal s'
  = (fun g =>
       if GameStore.aiEnabled s
          && checkGoalCompletion (GameStore.grid s) (GameStore.stats s') (Some g)
       then AIGoal.complete g else g) <$> GameStore.currentGoal s.
Proof.
  intros Hrun. rewrite <- tick_revisions_agree. unfold ModularStore.tick.
  rewrite Hrun.
  destruct (calculateNextDay _ _) as [S'|]; simpl; [| discriminate].
  intros [= <-]. cbn [GameStore.currentGoal GameStore.stats GameStore.setStatsGoal].
  destruct (GameStore.currentGoal s) as [g|]; [| reflexivity].
  cbn [fmap option_fmap option_map].
  destruct (GameStore.aiEnabled s); cbn [andb].
  - destruct (AIGoal.completed g) eqn:Hc; cbn [negb].
    + reflexivity.
    + match goal with |- (if ?c then _ else _) = _ => destruct c end; reflexivity.
  - reflexivity.
Qed.


(** X15.  A tick of a running game never replaces or drops the goal and
    changes nothing of it but [completed], which it only ever sets: the
    goal after the tick is the goal before, marked completed exactly when
    the advisor is enabled and the goal evaluator accepts it on the
    statistics of the new day (so a money goal can be met by this very
    tick's income). *)
Theorem tick_goal_flag (s s' : GameStore.t) :
  GameStore.isPaused s = false ->
  Store.tick s = Some s' ->
  GameStore.currentGoal s'
  = (fun g =>
       if GameStore.aiEnabled s
          && checkGoalCompletion (GameStore.grid s) (GameStore.stats s') (Some g)
       then AIGoal.complete g else g) <$> GameStore.currentGoal s.
Proof. apply tick_goal_after. Qed.

(** A goal of 520 in the treasury, with 500 in hand and 55 a day. *)
Lemma tick_goal_flag_witness :
  exists s',
    Store.tick savingTown = Some s'
    /\ (AIGoal.completed <$> GameStore.currentGoal s') = Some true.
Proof.
  destruct (Store.tick savingTown) as [s'|] eqn:Ht; [| vm_compute in Ht; discriminate].
  exists s'. split; [reflexivity |].
  pose proof (tick_goal_flag savingTown s' eq_refl Ht) as Hflag.
  vm_compute in Ht. injection Ht as <-. rewrite Hflag. vm_compute. reflexivity.
Defined.

(** X16.  A reward is collected once: claiming again right after a
    claim, at whatever time, returns the store the first claim
    returned. *)
Theorem claimReward_once now now' (s : GameStore.t) :
  claimReward now' (claimReward now s) = claimReward now s.
Proof.
  unfold claimReward at 2 3.
  destruct (GameStore.currentGoal s) as [g|] eqn:Hg.
  - destruct (AIGoal.completed g) eqn:Hc.
    + reflexivity.
    + unfold claimReward. rewrite Hg, Hc. reflexivity.
  - unfold claimReward. rewrite Hg. reflexivity.
Qed.

(** ** The dictionary of building counts *)

Lemma countIn_nonneg b l : 0 <= countIn b l.
Proof. unfold countIn. apply count_fold_lower. Qed.

Lemma buildingCounts_fold_lookup b (l : list TileData.t) (m : gmap BuildingType.t Z) :
  (forall v, m !! b = Some v -> 0 < v) ->
  foldl (fun counts t =>
           <[TileData.buildingType t :=
               orZero (default 0 (counts !! TileData.buildingType t)) + 1]> counts)
        m l !! b
  = if decide (countIn b l = 0) then m !! b
    else Some (default 0 (m !! b) + countIn b l).
Proof.
  revert m. induction l as [|t l IH]; intros m Hm.
  - simpl. unfold countIn. simpl. reflexivity.
  - simpl. pose proof (countIn_nonneg b l) as Hl.
    rewrite countIn_cons, orZero_id.
    destruct (decide (TileData.buildingType t = b)) as [-> | Hne].
    + rewrite IH.
      * rewrite lookup_insert_eq. simpl.
        rewrite (decide_False (P := 1 + countIn b l = 0)) by lia.
        case_decide as H0; [rewrite H0 |]; f_equal; lia.
      * intros v. rewrite lookup_insert_eq. intros [= <-].
        destruct (m !! b) as [w|] eqn:Hw; simpl; [specialize (Hm w eq_refl) |]; lia.
    + rewrite IH.
      * rewrite lookup_insert_ne by exact Hne.
        replace (0 + countIn b l) with (countIn b l) by lia. reflexivity.
      * intros v. rewrite lookup_insert_ne by exact Hne. apply Hm.
Qed.

(** X17.  The dictionary the older tick fills while walking the grid
    has, under each building type, the number of tiles of that type, and
    no entry at all for a type that does not occur: a missing key means a
    count of zero, and a stored count is never zero. *)
Theorem buildingCounts_dictionary (grid : Grid) (b : BuildingType.t) :
  Store.buildingCounts grid !! b
  = if decide (countTiles grid b = 0) then None else Some (countTiles grid b).
Proof.
  unfold Store.buildingCounts. rewrite buildingCounts_fold_lookup.
  - rewrite countTiles_countIn, lookup_empty. simpl.
    case_decide; [reflexivity | f_equal; lia].
  - intros v. rewrite lookup_empty. discriminate.
Qed.

Lemma placeBuilding_outcomes_build now x y s tile :
  GameStore.isPaused s = false ->
  tileAt (GameStore.grid s) x y = Some tile ->
  GameStore.selectedTool s <> BuildingType.None ->
  TileData.buildingType tile = BuildingType.None ->
  CityStats.money (GameStore.stats s)
    >= BuildingConfig.cost (BUILDINGS (GameStore.selectedTool s)) ->
  exists s', Store.placeBuilding now x y s = Some s'
    /\ tileAt (GameStore.grid s') x y
       = Some (TileData.withBuildingType tile (GameStore.selectedTool s)).
Proof.
  intros Hrun Htile Htool Hfree Hmoney. unfold Store.placeBuilding.
  rewrite Hrun, Htile. simpl.
  rewrite decide_False by exact Htool.
  rewrite decide_True by exact Hfree.
  unfold Lib.canAffordBuilding. rewrite orZero_id.
  rewrite bool_decide_eq_true_2 by exact Hmoney.
  eexists. split; [reflexivity |]. simpl.
  eapply tileAt_replaceTile_eq. exact Htile.
Qed.

(** ** The toolbar and the map against the store *)

(** X18.  A tool button is enabled exactly for the bulldozer and for the
    tools whose cost the treasury covers ([canAfford] of the simulation);
    so a building tool whose button is enabled is never refused for
    lack of funds on an empty tile of a running game.  The bulldozer's
    button stays enabled below the demolition cost. *)
Theorem toolbar_enabled_iff (money : Z) (type : BuildingType.t) :
  (Toolbar.disabled money type = false
   <-> type = BuildingType.None \/ canAfford money type = true)
  /\ (forall now x y s tile,
        GameStore.isPaused s = false ->
        CityStats.money (GameStore.stats s) = money ->
        GameStore.selectedTool s = type ->
        type <> BuildingType.None ->
        Toolbar.disabled money type = false ->
        tileAt (GameStore.grid s) x y = Some tile ->
        TileData.buildingType tile = BuildingType.None ->
        exists s', Store.placeBuilding now x y s = Some s'
                   /\ tileAt (GameStore.grid s') x y
                      = Some (TileData.withBuildingType tile type)).
Proof.
  assert (Hiff : Toolbar.disabled money type = false
                 <-> type = BuildingType.None \/ canAfford money type = true).
  { unfold Toolbar.disabled, Toolbar.isBulldoze, Toolbar.canAfford, canAfford.
    rewrite orZero_id. destruct (decide (type = BuildingType.None)) as [-> | Hne].
    - simpl. split; auto.
    - rewrite (bool_decide_eq_false_2 _ Hne). simpl.
      rewrite negb_false_iff. split; [auto | intros [? | ?]; [contradiction | auto]]. }
  split; [exact Hiff |].
  intros now x y s tile Hrun Hmoney Htool Hne Hen Htile Hfree.
  apply Hiff in Hen. destruct Hen as [? | Hafford]; [contradiction |].
  unfold canAfford in Hafford. rewrite decide_False, orZero_id in Hafford by exact Hne.
  apply bool_decide_eq_true in Hafford.
  destruct (placeBuilding_outcomes_build now x y s tile) as (s' & Hs' & Ht);
    try assumption.
  - rewrite Htool. exact Hne.
  - rewrite Hmoney, Htool. exact Hafford.
  - exists s'. rewrite <- Htool. auto.
Qed.

Lemma toolbar_enabled_iff_witness :
  Toolbar.disabled 3 BuildingType.Road = true
  /\ Toolbar.disabled 3 BuildingType.None = false
  /\ exists s', Store.placeBuilding 1700000000000 5 6 smallTown = Some s'
       /\ tileAt (GameStore.grid s') 5 6
          = Some (TileData.withBuildingType (TileData.mk 5 6 BuildingType.None)
                    BuildingType.Road).
Proof.
  split; [reflexivity | split; [reflexivity |]].
  apply (proj2 (toolbar_enabled_iff 500 BuildingType.Road)
           1700000000000%N 5%nat 6%nat smallTown (TileData.mk 5 6 BuildingType.None)).
  - reflexivity.
  - reflexivity.
  - reflexivity.
  - discriminate.
  - reflexivity.
  - reflexivity.
  - reflexivity.
Defined.



(** ** Where the agents may be *)

Lemma collect_fold (P : TileData.t -> Prop) `{forall t, Decision (P t)}
  (l : list TileData.t) (acc : list (nat * nat)) :
  foldl (fun acc t =>
           if decide (P t) then acc ++ [(TileData.x t, TileData.y t)] else acc)
        acc l
  = acc ++ ((fun t => (TileData.x t, TileData.y t)) <$> filter P l).
Proof.
  revert acc. induction l as [|t l IH]; intros acc; simpl.
  - rewrite app_nil_r. reflexivity.
  - rewrite IH, filter_cons. case_decide; simpl.
    + rewrite <- app_assoc. reflexivity.
    + reflexivity.
Qed.

Lemma roadTiles_flat grid :
  roadTiles grid
  = (fun t => (TileData.x t, TileData.y t))
      <$> filter (fun t => TileData.buildingType t = BuildingType.Road) (concat grid).
Proof.
  unfold roadTiles. rewrite foldl_concat.
  apply (collect_fold (fun t => TileData.buildingType t = BuildingType.Road)
           (concat grid) []).
Qed.

Lemma walkableTiles_flat grid :
  walkableTiles grid
  = (fun t => (TileData.x t, TileData.y t))
      <$> filter (fun t => TileData.buildingType t = BuildingType.Road
                           \/ TileData.buildingType t = BuildingType.Park
                           \/ TileData.buildingType t = BuildingType.None)
                 (concat grid).
Proof.
  unfold walkableTiles. rewrite foldl_concat.
  apply (collect_fold (fun t => TileData.buildingType t = BuildingType.Road
                                \/ TileData.buildingType t = BuildingType.Park
                                \/ TileData.buildingType t = BuildingType.None)
           (concat grid) []).
Qed.

Lemma elem_of_concat_tileAt (grid : Grid) (t : TileData.t) :
  t ∈ concat grid <-> exists x y, tileAt grid x y = Some t.
Proof.
  rewrite list_elem_of_In, in_concat. unfold tileAt. split.
  - intros (row & Hrow & Ht).
    apply list_elem_of_In, list_elem_of_lookup in Hrow. destruct Hrow as [y Hy].
    apply list_elem_of_In, list_elem_of_lookup in Ht. destruct Ht as [x Hx].
    exists x, y. rewrite Hy. exact Hx.
  - intros (x & y & Ht).
    destruct (grid !! y) as [row|] eqn:Hrow; simpl in Ht; [| discriminate].
    exists row. split; apply list_elem_of_In, list_elem_of_lookup; eauto.
Qed.

Lemma rows_coords_NoDup (grid : Grid) (k : nat) :
  (forall j row i t, grid !! j = Some row -> row !! i = Some t ->
     (TileData.x t, TileData.y t) = (i, (k + j)%nat)) ->
  NoDup ((fun t => (TileData.x t, TileData.y t)) <$> concat grid).
Proof.
  revert k. induction grid as [|row grid IH]; intros k Hco; simpl.
  - constructor.
  - rewrite fmap_app. apply NoDup_app. split; [| split].
    + apply NoDup_alt. intros i j c Hi Hj.
      rewrite list_lookup_fmap in Hi, Hj.
      destruct (row !! i) as [t|] eqn:Hti; simpl in Hi; [| discriminate].
      destruct (row !! j) as [t'|] eqn:Htj; simpl in Hj; [| discriminate].
      pose proof (Hco 0%nat row i t eq_refl Hti) as H1.
      pose proof (Hco 0%nat row j t' eq_refl Htj) as H2.
      congruence.
    + intros c Hc Hc'.
      apply list_elem_of_fmap in Hc. destruct Hc as (t & -> & Ht).
      apply list_elem_of_lookup in Ht. destruct Ht as [i Hti].
      apply list_elem_of_fmap in Hc'. destruct Hc' as (t' & Heq & Ht').
      apply list_elem_of_In, in_concat in Ht'. destruct Ht' as (row' & Hrow' & Ht').
      apply list_elem_of_In, list_elem_of_lookup in Hrow'. destruct Hrow' as [j Hj].
      apply list_elem_of_In, list_elem_of_lookup in Ht'. destruct Ht' as [i' Hti'].
      pose proof (Hco 0%nat row i t eq_refl Hti) as H1.
      pose proof (Hco (S j) row' i' t' Hj Hti') as H2.
      rewrite Heq, H2 in H1. injection H1 as _ H1. lia.
    + apply (IH (S k)). intros j row' i t Hj Hti.
      rewrite (Hco (S j) row' i t Hj Hti). f_equal. lia.
Qed.

Lemma coherent_coords_NoDup grid :
  coherent_grid grid ->
  NoDup ((fun t => (TileData.x t, TileData.y t)) <$> concat grid).
Proof.
  intros Hco. apply (rows_coords_NoDup grid 0). intros j row i t Hj Hi.
  destruct (Hco i j t) as [-> ->]; [| reflexivity].
  unfold tileAt. rewrite Hj. exact Hi.
Qed.

Lemma collected_members (P : TileData.t -> Prop) `{forall t, Decision (P t)}
  (grid : Grid) x y :
  coherent_grid grid ->
  (x, y) ∈ (fun t => (TileData.x t, TileData.y t)) <$> filter P (concat grid)
  <-> exists t, tileAt grid x y = Some t /\ P t.
Proof.
  intros Hco. rewrite list_elem_of_fmap. split.
  - intros (t & Heq & Ht). apply list_elem_of_filter in Ht. destruct Ht as [HP Ht].
    apply elem_of_concat_tileAt in Ht. destruct Ht as (x' & y' & Ht).
    destruct (Hco _ _ _ Ht) as [Hx Hy]. injection Heq as -> ->.
    exists t. rewrite Hx, Hy. auto.
  - intros (t & Ht & HP). exists t.
    destruct (Hco _ _ _ Ht) as [-> ->]. split; [reflexivity |].
    apply list_elem_of_filter. split; [exact HP |].
    apply elem_of_concat_tileAt. eauto.
Qed.

Lemma collected_NoDup (P : TileData.t -> Prop) `{forall t, Decision (P t)}
  (grid : Grid) :
  coherent_grid grid ->
  NoDup ((fun t => (TileData.x t, TileData.y t)) <$> filter P (concat grid)).
Proof.
  intros Hco.
  eapply sublist_NoDup; [apply coherent_coords_NoDup; exact Hco |].
  apply fmap_sublist, sublist_filter.
Qed.

(** X20.  On a grid whose tiles carry their own positions (every
    reachable grid), the vehicles' tile list holds exactly the positions
    of the Road tiles and the pedestrians' list exactly the positions of
    the Road, Park and empty tiles, each position once; so every road
    tile is also walkable. *)
Theorem agent_tiles_exact (G : Grid) :
  coherent_grid G ->
  (forall x y, (x, y) ∈ roadTiles G
     <-> exists t, tileAt G x y = Some t
                   /\ TileData.buildingType t = BuildingType.Road)
  /\ (forall x y, (x, y) ∈ walkableTiles G
        <-> exists t, tileAt G x y = Some t
                      /\ (TileData.buildingType t = BuildingType.Road
                          \/ TileData.buildingType t = BuildingType.Park
                          \/ TileData.buildingType t = BuildingType.None))
  /\ NoDup (roadTiles G) /\ NoDup (walkableTiles G)
  /\ roadTiles G ⊆ walkableTiles G.
Proof.
  intros Hco. rewrite roadTiles_flat, walkableTiles_flat.
  assert (Hr := fun x y => collected_members
    (fun t => TileData.buildingType t = BuildingType.Road) G x y Hco).
  assert (Hw := fun x y => collected_members
    (fun t => TileData.buildingType t = BuildingType.Road
              \/ TileData.buildingType t = BuildingType.Park
              \/ TileData.buildingType t = BuildingType.None) G x y Hco).
  split; [exact Hr | split; [exact Hw |]].
  split; [apply collected_NoDup; exact Hco |].
  split; [apply collected_NoDup; exact Hco |].
  intros [x y] Hin. apply Hw. apply Hr in Hin. destruct Hin as (t & Ht & Hroad).
  exists t. auto.
Qed.

Lemma agent_tiles_exact_witness :
  (forall x y, (x, y) ∈ roadTiles (GameStore.grid brokeDemolishStore)
     <-> exists t, tileAt (GameStore.grid brokeDemolishStore) x y = Some t
                   /\ TileData.buildingType t = BuildingType.Road)
  /\ (forall x y, (x, y) ∈ walkableTiles (GameStore.grid brokeDemolishStore)
        <-> exists t, tileAt (GameStore.grid brokeDemolishStore) x y = Some t
                      /\ (TileData.buildingType t = BuildingType.Road
                          \/ TileData.buildingType t = BuildingType.Park
                          \/ TileData.buildingType t = BuildingType.None))
  /\ NoDup (roadTiles (GameStore.grid brokeDemolishStore))
  /\ NoDup (walkableTiles (GameStore.grid brokeDemolishStore))
  /\ roadTiles (GameStore.grid brokeDemolishStore)
     ⊆ walkableTiles (GameStore.grid brokeDemolishStore).
Proof.
  apply (agent_tiles_exact (GameStore.grid brokeDemolishStore)).
  apply (replaceTile_coherent createInitialGrid 0 0
           (TileData.mk 0 0 BuildingType.None) BuildingType.Road).
  - exact createInitialGrid_coherent.
  - reflexivity.
Defined.

Lemma walkable_countIn (l : list TileData.t) :
  Z.of_nat (length (filter (fun t => TileData.buildingType t = BuildingType.Road
                                     \/ TileData.buildingType t = BuildingType.Park
                                     \/ TileData.buildingType t = BuildingType.None) l))
  = countIn BuildingType.Road l + countIn BuildingType.Park l
    + countIn BuildingType.None l.
Proof.
  induction l as [|t l IH].
  - reflexivity.
  - rewrite filter_cons, !countIn_cons.
    destruct (TileData.buildingType t) eqn:Hb; repeat case_decide;
      try congruence; simpl length; try lia;
      exfalso; intuition congruence.
Qed.

Lemma countIn_total (l : list TileData.t) :
  countIn BuildingType.None l + countIn BuildingType.Road l
  + countIn BuildingType.Residential l + countIn BuildingType.Commercial l
  + countIn BuildingType.Industrial l + countIn BuildingType.Park l
  = Z.of_nat (length l).
Proof.
  induction l as [|t l IH].
  - reflexivity.
  - rewrite !countIn_cons. simpl length.
    destruct (TileData.buildingType t); repeat case_decide; try congruence; lia.
Qed.

Lemma wf_grid_tiles grid :
  wf_grid grid -> length (concat grid) = (GRID_SIZE * GRID_SIZE)%nat.
Proof.
  intros [Hlen Hrows]. rewrite <- Hlen at 1. clear Hlen.
  induction Hrows as [|row grid Hrow _ IH]; simpl.
  - reflexivity.
  - rewrite length_app, IH, Hrow. reflexivity.
Qed.

(** X21.  The pedestrians' tile list has one entry per Road, Park and
    empty tile; on a full-size grid the walkable tiles and the
    Residential, Commercial and Industrial tiles add up to the 225 tiles
    of the map, so a tile is walkable exactly when it is none of those
    three. *)
Theorem walkable_partition (G : Grid) :
  Z.of_nat (length (walkableTiles G))
  = countTiles G BuildingType.Road + countTiles G BuildingType.Park
    + countTiles G BuildingType.None
  /\ (wf_grid G ->
      Z.of_nat (length (walkableTiles G))
      + countTiles G BuildingType.Residential
      + countTiles G BuildingType.Commercial
      + countTiles G BuildingType.Industrial = 225).
Proof.
  rewrite walkableTiles_flat, length_fmap, !countTiles_countIn, walkable_countIn.
  split; [reflexivity |].
  intros Hwf. pose proof (countIn_total (concat G)) as Htotal.
  rewrite (wf_grid_tiles G Hwf) in Htotal. unfold GRID_SIZE in Htotal. lia.
Qed.

Lemma walkable_partition_witness :
  Z.of_nat (length (walkableTiles oneRoadCity))
  + countTiles oneRoadCity BuildingType.Residential
  + countTiles oneRoadCity BuildingType.Commercial
  + countTiles oneRoadCity BuildingType.Industrial = 225.
Proof.
  apply (walkable_partition oneRoadCity).
  apply (bool_decide_unpack _). vm_compute. exact I.
Defined.

(** ** A car reaching its target *)

Lemma NoDup_all_equal {A : Type} (l : list A) (a : A) :
  NoDup l -> (forall b, b ∈ l -> b = a) -> (length l <= 1)%nat.
Proof.
  intros Hnd Hall. destruct l as [|b [|c l]]; simpl; try lia.
  exfalso. apply NoDup_cons in Hnd. destruct Hnd as [Hb _]. apply Hb.
  rewrite (Hall b), <- (Hall c); [left | right; left | left].
Qed.

(** The arrival branch proper, once the callback has passed its guard. *)
Lemma arrival_branch (entropy : nat -> nat) (draw : nat)
  (roads : list (nat * nat)) (car : Car) :
  (2 <= length roads)%nat ->
  exists car',
    Traffic.arrive entropy draw roads car = Some car'
    /\ progress car' = 0
    /\ (tarX car', tarY car') ∈ roads
    /\ (filter (Traffic.adjacent (tarX car) (tarY car)) roads <> [] ->
        (curX car', curY car') = (tarX car, tarY car)
        /\ Traffic.adjacent (curX car') (curY car') (tarX car', tarY car'))
    /\ (filter (Traffic.adjacent (tarX car) (tarY car)) roads = [] ->
        (curX car', curY car') = (tarX car', tarY car'))
    /\ (NoDup roads ->
        (1 < length (filter (Traffic.adjacent (tarX car) (tarY car)) roads))%nat ->
        (tarX car', tarY car') <> (curX car, curY car)).
Proof.
  intros Hroads. unfold Traffic.arrive.
  rewrite decide_False by lia.
  set (nb := filter (Traffic.adjacent (tarX car) (tarY car)) roads).
  assert (Hnb : forall t, t ∈ nb -> t ∈ roads /\ Traffic.adjacent (tarX car) (tarY car) t).
  { intros t Ht. apply list_elem_of_filter in Ht. tauto. }
  destruct (decide (0 < length nb)%nat) as [Hpos | Hnone].
  - set (valid := if decide (1 < length nb)%nat
                  then filter (fun n => n.1 <> curX car \/ n.2 <> curY car) nb
                  else nb).
    assert (Hvalid : forall t, t ∈ valid -> t ∈ nb).
    { intros t. unfold valid. case_decide; [| auto].
      rewrite list_elem_of_filter. tauto. }
    assert (Hnext : exists next,
              (if decide (0 < length valid)%nat
               then valid !! randomIndex entropy draw (length valid)
               else nb !! 0%nat) = Some next
              /\ next ∈ nb
              /\ ((0 < length valid)%nat -> next ∈ valid)).
    { case_decide as Hv.
      - destruct (randomIndex_lookup entropy draw valid Hv) as (next & Hn & Hin).
        exists next. auto.
      - destruct (lookup_lt_is_Some_2 nb 0%nat Hpos) as [next Hn].
        exists next. split; [exact Hn | split; [| lia]].
        eapply list_elem_of_lookup_2. exact Hn. }
    destruct Hnext as (next & -> & Hin & Hinv). simpl.
    eexists. split; [reflexivity |]. simpl.
    destruct (Hnb next Hin) as [Hroad Hadj].
    split; [reflexivity |].
    split; [destruct next; exact Hroad |].
    split; [intros _; split; [reflexivity | destruct next; exact Hadj] |].
    split; [intros Hnil; rewrite Hnil in Hpos; simpl in Hpos; lia |].
    intros Hnd Hmany Heq.
    assert (Hv : (0 < length valid)%nat).
    { destruct (decide (0 < length valid)%nat) as [? | Hempty]; [assumption |].
      exfalso. unfold valid in Hempty. rewrite decide_True in Hempty by exact Hmany.
      assert (Hle : (length nb <= 1)%nat).
      { apply (NoDup_all_equal nb (curX car, curY car)).
        - apply NoDup_filter. exact Hnd.
        - intros b Hb.
          destruct (decide (b = (curX car, curY car))) as [? | Hneq]; [assumption |].
          exfalso. apply Hempty.
          assert (Hin' : b ∈ filter (fun n => n.1 <> curX car \/ n.2 <> curY car) nb).
          { apply list_elem_of_filter. split; [| exact Hb].
            destruct b as [bx by_]. simpl.
            destruct (decide (bx = curX car)) as [Hx | Hx]; [right | left; exact Hx].
            intros Hy. apply Hneq. rewrite Hx, Hy. reflexivity. }
          apply list_elem_of_lookup in Hin'. destruct Hin' as [k Hk].
          apply lookup_lt_Some in Hk. lia. }
      lia. }
    specialize (Hinv Hv). unfold valid in Hinv.
    rewrite decide_True in Hinv by exact Hmany.
    apply list_elem_of_filter in Hinv. destruct Hinv as [Hne _].
    destruct next as [nx ny]. simpl in *. injection Heq as -> ->. tauto.
  - assert (Hpos : (0 < length roads)%nat) by lia.
    destruct (randomIndex_lookup entropy draw roads Hpos) as (rnd & -> & Hin). simpl.
    eexists. split; [reflexivity |]. simpl.
    split; [reflexivity |].
    split; [destruct rnd; exact Hin |].
    split; [intros Hne; destruct nb; [contradiction | simpl in Hnone; lia] |].
    split; [reflexivity |].
    intros _ Hmany. lia.
Qed.

(** X22.  A car reaching its target.  With fewer than two road tiles the
    frame callback returns at once and the car is left as it is, its
    progress included.  With two or more, the arrival step returns a car
    with progress 0 whose new target is a road tile.  If the tile it
    reached has road neighbours, the car now stands on that tile and
    targets one of them, one step away; if the road list holds no
    position twice and the tile has two or more neighbours, the target
    is never the tile the car just came from; if the tile has no
    neighbour, the car is put on some road tile with that tile as
    target.  The road list of a grid whose tiles carry their own
    coordinates holds no position twice. *)
Theorem car_arrival (entropy : nat -> nat) (draw : nat)
  (roads : list (nat * nat)) (car : Car) :
  ((length roads < 2)%nat -> Traffic.arrive entropy draw roads car = Some car)
  /\ ((2 <= length roads)%nat ->
      exists car',
        Traffic.arrive entropy draw roads car = Some car'
        /\ progress car' = 0
        /\ (tarX car', tarY car') ∈ roads
        /\ (filter (Traffic.adjacent (tarX car) (tarY car)) roads <> [] ->
            (curX car', curY car') = (tarX car, tarY car)
            /\ Traffic.adjacent (curX car') (curY car') (tarX car', tarY car'))
        /\ (filter (Traffic.adjacent (tarX car) (tarY car)) roads = [] ->
            (curX car', curY car') = (tarX car', tarY car'))
        /\ (NoDup roads ->
            (1 < length (filter (Traffic.adjacent (tarX car) (tarY car)) roads))%nat ->
            (tarX car', tarY car') <> (curX car, curY car)))
  /\ (forall G : Grid, coherent_grid G -> NoDup (roadTiles G)).
Proof.
  split; [| split].
  - intros Hfew. unfold Traffic.arrive. rewrite decide_True by exact Hfew. reflexivity.
  - apply arrival_branch.
  - intros G HG. rewrite roadTiles_flat. apply collected_NoDup. exact HG.
Qed.

(** A car that drove from (1,2) to (2,2) on the sample roads goes on to
    (3,2) or (2,3), never back; on the last road tile left it stays as it
    is, progress 1. *)
Lemma car_arrival_witness :
  ((2 <= length sampleRoads)%nat /\ NoDup sampleRoads
   /\ (length lastRoad < 2)%nat)
  /\ (exists car',
        Traffic.arrive (fun k => k) 7 sampleRoads (mkCar 1 2 2 2 1) = Some car'
        /\ progress car' = 0
        /\ (curX car', curY car') = (2, 2)%nat
        /\ (tarX car', tarY car') ∈ sampleRoads
        /\ (tarX car', tarY car') <> (1, 2)%nat)
  /\ Traffic.arrive (fun k => k) 7 lastRoad (mkCar 1 2 2 2 1)
     = Some (mkCar 1 2 2 2 1).
Proof.
  assert (Hnd : NoDup sampleRoads)
    by (apply (bool_decide_unpack _); vm_compute; exact I).
  split.
  { split; [vm_compute; lia |]. split; [exact Hnd | vm_compute; lia]. }
  destruct (car_arrival (fun k => k) 7 sampleRoads (mkCar 1 2 2 2 1))
    as (_ & Hmany & _).
  destruct (car_arrival (fun k => k) 7 lastRoad (mkCar 1 2 2 2 1))
    as (Hfew & _ & _).
  split.
  - destruct Hmany as (car' & Ha & Hp & Hroad & Hnb & _ & Hback);
      [vm_compute; lia |].
    exists car'. split; [exact Ha |]. split; [exact Hp |].
    split; [apply Hnb; vm_compute; discriminate |].
    split; [exact Hroad |].
    apply Hback; [exact Hnd | vm_compute; lia].
  - apply Hfew. vm_compute. lia.
Defined.

(** ** The first App's game loop against the store's tick *)

Lemma scan_yields (l : list TileData.t) (sc : LegacyApp.Scan) (ta : Tally) :
  LegacyApp.dailyIncome sc = dailyIncome ta ->
  LegacyApp.dailyPopGrowth sc = dailyPopGrowth ta ->
  LegacyApp.dailyIncome (foldl LegacyApp.scanTile sc l)
    = dailyIncome (foldl (fun acc t => visitTile t acc) ta l)
  /\ LegacyApp.dailyPopGrowth (foldl LegacyApp.scanTile sc l)
     = dailyPopGrowth (foldl (fun acc t => visitTile t acc) ta l).
Proof.
  revert sc ta. induction l as [|t l IH]; intros sc ta Hi Hp; simpl.
  - auto.
  - apply IH; unfold LegacyApp.scanTile, visitTile; case_decide; simpl; congruence.
Qed.

Lemma scanTile_lookup b (sc : LegacyApp.Scan) (t : TileData.t) :
  b <> BuildingType.None ->
  LegacyApp.buildingCounts (LegacyApp.scanTile sc t) !! b
  = if decide (TileData.buildingType t = b)
    then Some (default 0 (LegacyApp.buildingCounts sc !! b) + 1)
    else LegacyApp.buildingCounts sc !! b.
Proof.
  intros Hb. unfold LegacyApp.scanTile.
  destruct (decide (TileData.buildingType t = b)) as [Heq | Hne].
  - rewrite decide_True by congruence. simpl.
    rewrite Heq, orZero_id, lookup_insert_eq. reflexivity.
  - destruct (decide (TileData.buildingType t <> BuildingType.None)); simpl;
      [rewrite lookup_insert_ne by exact Hne |]; reflexivity.
Qed.

Lemma scan_counts b (l : list TileData.t) (sc : LegacyApp.Scan) :
  b <> BuildingType.None ->
  (forall v, LegacyApp.buildingCounts sc !! b = Some v -> 0 < v) ->
  LegacyApp.buildingCounts (foldl LegacyApp.scanTile sc l) !! b
  = if decide (countIn b l = 0) then LegacyApp.buildingCounts sc !! b
    else Some (default 0 (LegacyApp.buildingCounts sc !! b) + countIn b l).
Proof.
  intros Hb. revert sc. induction l as [|t l IH]; intros sc Hsc.
  - simpl. unfold countIn. simpl. reflexivity.
  - pose proof (countIn_nonneg b l) as Hl.
    assert (Hpos : forall v,
              LegacyApp.buildingCounts (LegacyApp.scanTile sc t) !! b = Some v -> 0 < v).
    { intros v. rewrite scanTile_lookup by exact Hb.
      destruct (decide (TileData.buildingType t = b)); [| apply Hsc].
      intros [= <-].
      destruct (LegacyApp.buildingCounts sc !! b) as [w|] eqn:Hw; simpl;
        [specialize (Hsc w eq_refl) |]; lia. }
    change (foldl LegacyApp.scanTile sc (t :: l))
      with (foldl LegacyApp.scanTile (LegacyApp.scanTile sc t) l).
    rewrite (IH _ Hpos), countIn_cons, scanTile_lookup by exact Hb.
    destruct (decide (TileData.buildingType t = b)) as [Heq | Hne];
      destruct (decide (countIn b l = 0)) as [H0 | H0].
    + rewrite decide_False by lia. rewrite H0. simpl. f_equal; lia.
    + rewrite decide_False by lia. simpl. f_equal; lia.
    + rewrite decide_True by lia. reflexivity.
    + rewrite decide_False by lia. f_equal; lia.
Qed.

Lemma scan_count_of grid b :
  b <> BuildingType.None ->
  orZero (default 0
    (LegacyApp.buildingCounts
       (foldl LegacyApp.scanTile (LegacyApp.mkScan 0 0 ∅) (concat grid)) !! b))
  = countTiles grid b.
Proof.
  intros Hb. rewrite orZero_id, scan_counts, countTiles_countIn.
  - simpl. rewrite lookup_empty. case_decide; simpl; lia.
  - exact Hb.
  - intros v. simpl. rewrite lookup_empty. discriminate.
Qed.

(** X23.  The game loop of the first App and the store's tick compute
    the same day: on a full-size grid of a running game, for a goal that
    does not count empty tiles, the statistics and the goal the loop
    produces are those of the store after [tick].  (The loop's dictionary
    leaves empty tiles out, the store's counts them.) *)
Theorem legacy_loop_agrees (s : GameStore.t) :
  wf_grid (GameStore.grid s) ->
  GameStore.isPaused s = false ->
  (forall g, GameStore.currentGoal s = Some g ->
             AIGoal.buildingType g <> Some BuildingType.None) ->
  exists s',
    Store.tick s = Some s'
    /\ LegacyApp.gameLoop (GameStore.stats s) (GameStore.grid s)
         (GameStore.aiEnabled s) (GameStore.currentGoal s)
       = (GameStore.stats s', GameStore.currentGoal s').
Proof.
  intros Hwf Hrun Hgoal.
  destruct (calculateNextDay_total (GameStore.stats s) (GameStore.grid s) Hwf)
    as (tally & Ha & Hr & _ & _ & Hnext).
  destruct (tick_running s _ Hrun Hnext) as (s' & Ht & Hstats & _ & _).
  exists s'. split; [exact Ht |].
  rewrite (tick_goal_after s s' Hrun Ht), Hstats.
  rewrite (analyzeGrid_wf _ Hwf) in Ha. injection Ha as <-.
  unfold LegacyApp.gameLoop.
  destruct (scan_yields (concat (GameStore.grid s)) (LegacyApp.mkScan 0 0 ∅) tally0
              eq_refl eq_refl) as [Hi Hp].
  rewrite Hi, Hp.
  rewrite (scan_count_of (GameStore.grid s) BuildingType.Residential) by discriminate.
  rewrite <- Hr.
  unfold MAX_POP_PER_RESIDENTIAL, NO_HOUSING_DECAY.
  set (tally := foldl (fun acc t => visitTile t acc) tally0 (concat (GameStore.grid s))).
  set (newStats := CityStats.mk _ _ _).
  f_equal.
  destruct (GameStore.currentGoal s) as [g|]; [| reflexivity].
  specialize (Hgoal g eq_refl). cbn [fmap option_fmap option_map].
  destruct (GameStore.aiEnabled s); cbn [andb]; [| reflexivity].
  unfold checkGoalCompletion.
  destruct (AIGoal.completed g); cbn [negb]; [reflexivity |].
  destruct (AIGoal.targetType g); simpl.
  - destruct (bool_decide _); reflexivity.
  - destruct (bool_decide _); reflexivity.
  - destruct (AIGoal.buildingType g) as [b|]; [| reflexivity].
    rewrite (scan_count_of (GameStore.grid s) b) by congruence.
    clear. repeat goal_decide; reflexivity.
Qed.

Lemma legacy_loop_agrees_witness :
  exists s',
    Store.tick savingTown = Some s'
    /\ LegacyApp.gameLoop (GameStore.stats savingTown) (GameStore.grid savingTown)
         (GameStore.aiEnabled savingTown) (GameStore.currentGoal savingTown)
       = (GameStore.stats s', GameStore.currentGoal s').
Proof.
  apply (legacy_loop_agrees savingTown).
  - apply (bool_decide_unpack _). vm_compute. exact I.
  - reflexivity.
  - intros g [= <-]. discriminate.
Defined.
